(** * Alraedah suite: contact normalisation, batch classification and
      archive layout

    A shallow embedding of the pure pipeline shared by the three Streamlit
    variants of the repository ([a.py], [app.py], [app2.py]): the field
    normalisers, the duplicate / invalid detector of the batch upload
    handler, the root-prefix sanitiser, the ZIP writers and the vCard
    serialisers.

    Python [str] values are modelled as [string]; a character is one of the
    256 one-byte code points (the Latin-1 range of Unicode), so the character
    classes below are the Unicode ones restricted to that range.  Python
    [int] values are [Z].  A [dict] is a [gmap] with string keys.  A pandas
    [Series] is the list of its values in row order under the default
    [RangeIndex] that [pd.read_excel] produces. *)

From Stdlib Require Import Ascii ZArith Lia Bool.
From stdpp Require Import base strings list gmap.

#[local] Set Warnings "-clear-no-such-hyp".

(** ** Python string primitives *)

Module PyStr.

Definition code (c : ascii) : N := N_of_ascii c.

Definition in_range (lo hi : N) (c : ascii) : bool :=
  ((lo <=? code c) && (code c <=? hi))%N.

(** [\d] of the [re] module on [str] patterns: the decimal digits. *)
Definition is_digit (c : ascii) : bool := in_range 48 57 c.

(** The characters removed by [str.strip()] without argument. *)
Definition is_space (c : ascii) : bool :=
  in_range 9 13 c || in_range 28 32 c || (code c =? 133)%N || (code c =? 160)%N.

(** [str.lower()], character by character. *)
Definition lower_char (c : ascii) : ascii :=
  if in_range 65 90 c
     || (in_range 192 222 c && negb (code c =? 215)%N)
  then ascii_of_N (code c + 32)
  else c.

(** [bool(s)] : a string is falsy exactly when it is empty. *)
Definition truthy (s : string) : bool :=
  match s with EmptyString => false | String _ _ => true end.

(** [len(s)] *)
Definition len (s : string) : Z := Z.of_nat (String.length s).

Fixpoint filter_chars (f : ascii -> bool) (s : string) : string :=
  match s with
  | EmptyString => EmptyString
  | String c r => if f c then String c (filter_chars f r) else filter_chars f r
  end.

Fixpoint all_chars (f : ascii -> bool) (s : string) : bool :=
  match s with
  | EmptyString => true
  | String c r => f c && all_chars f r
  end.

Fixpoint map_chars (f : ascii -> ascii) (s : string) : string :=
  match s with
  | EmptyString => EmptyString
  | String c r => String (f c) (map_chars f r)
  end.

(** [s.startswith(p)] *)
Fixpoint startswith (p s : string) : bool :=
  match p, s with
  | EmptyString, _ => true
  | String _ _, EmptyString => false
  | String a p', String b s' => Ascii.eqb a b && startswith p' s'
  end.

(** [s.endswith(c)] for a one-character suffix *)
Fixpoint endswith_char (c : ascii) (s : string) : bool :=
  match s with
  | EmptyString => false
  | String a EmptyString => Ascii.eqb a c
  | String _ r => endswith_char c r
  end.

(** [s[n:]] for a non-negative literal [n] *)
Fixpoint slice_from (n : nat) (s : string) : string :=
  match n, s with
  | O, _ => s
  | S _, EmptyString => EmptyString
  | S n', String _ r => slice_from n' r
  end.

(** [s.count(c)] for a one-character needle *)
Fixpoint count (c : ascii) (s : string) : Z :=
  match s with
  | EmptyString => 0
  | String a r => (if Ascii.eqb a c then 1 else 0) + count c r
  end.

(** [c in s] for a one-character needle *)
Fixpoint contains (c : ascii) (s : string) : bool :=
  match s with
  | EmptyString => false
  | String a r => Ascii.eqb a c || contains c r
  end.

Fixpoint lstrip_by (f : ascii -> bool) (s : string) : string :=
  match s with
  | EmptyString => EmptyString
  | String c r => if f c then lstrip_by f r else s
  end.

Fixpoint rstrip_by (f : ascii -> bool) (s : string) : string :=
  match s with
  | EmptyString => EmptyString
  | String c r =>
      match rstrip_by f r with
      | EmptyString => if f c then EmptyString else String c EmptyString
      | r' => String c r'
      end
  end.

Definition strip_by (f : ascii -> bool) (s : string) : string :=
  rstrip_by f (lstrip_by f s).

(** [s.strip()] *)
Definition strip (s : string) : string := strip_by is_space s.

(** [s.strip(chars)] *)
Definition strip_chars (chars : string) (s : string) : string :=
  strip_by (fun c => contains c chars) s.

(** [s.lower()] *)
Definition lower (s : string) : string := map_chars lower_char s.

(** [s.replace(a, b)] for one-character [a] and [b] *)
Definition replace_char (a b : ascii) (s : string) : string :=
  map_chars (fun c => if Ascii.eqb c a then b else c) s.

(** [sep.join(l)] *)
Fixpoint join (sep : string) (l : list string) : string :=
  match l with
  | [] => EmptyString
  | [x] => x
  | x :: r => x +:+ sep +:+ join sep r
  end.

(** [x or d] on strings *)
Definition or_else (x d : string) : string := if truthy x then x else d.

(** [re.sub(r"\D", "", s)] *)
Definition re_sub_nondigits (s : string) : string := filter_chars is_digit s.

End PyStr.

(** ** Field normaliser ([a.py] lines 134-151, identical in [app.py]) *)

Module Normalizer.
Import PyStr.

Definition normalize_saudi_mobile (mobile : string) : string * bool :=
  if negb (truthy mobile) then ("", false) else
  let clean := re_sub_nondigits mobile in
  let clean :=
    if startswith "00966" clean && (len clean =? 14)%Z
    then slice_from 2 clean else clean in
  if startswith "9665" clean && (len clean =? 12)%Z then ("+" +:+ clean, true) else
  if startswith "05" clean && (len clean =? 10)%Z
  then ("+966" +:+ slice_from 1 clean, true) else
  if startswith "5" clean && (len clean =? 9)%Z then ("+966" +:+ clean, true) else
  if startswith "966" clean && (len clean =? 12)%Z then ("+" +:+ clean, true) else
  if startswith "+966" clean && (len clean =? 13)%Z then (clean, true) else
  (mobile, false).

Definition normalize_email (email : string) : string * bool :=
  if negb (truthy email) then ("", false) else
  let e := lower (strip email) in
  (e, contains "@"%char e && (count "@"%char e =? 1)%Z).

(** The rule patterns of the specification, section 4.1, as worded there:
    rules 1 to 5 read the digit-stripped string, rule 6 the original one. *)
Definition spec_rule1 (raw : string) : bool :=
  let c := re_sub_nondigits raw in startswith "00966" c && (len c =? 14)%Z.
Definition spec_rule2 (raw : string) : bool :=
  let c := re_sub_nondigits raw in startswith "9665" c && (len c =? 12)%Z.
Definition spec_rule3 (raw : string) : bool :=
  let c := re_sub_nondigits raw in startswith "05" c && (len c =? 10)%Z.
Definition spec_rule4 (raw : string) : bool :=
  let c := re_sub_nondigits raw in startswith "5" c && (len c =? 9)%Z.
Definition spec_rule5 (raw : string) : bool :=
  let c := re_sub_nondigits raw in startswith "966" c && (len c =? 12)%Z.
Definition spec_rule6 (raw : string) : bool :=
  startswith "+966" raw && (len raw =? 13)%Z.

Definition spec_rules_1_5 (raw : string) : bool :=
  spec_rule1 raw || spec_rule2 raw || spec_rule3 raw || spec_rule4 raw
  || spec_rule5 raw.

Definition spec_rules_1_6 (raw : string) : bool :=
  spec_rules_1_5 raw || spec_rule6 raw.

(** The shape [+966XXXXXXXXX]: thirteen characters, nine digits after the
    country prefix. *)
Definition is_plus966_form (s : string) : bool :=
  startswith "+966" s && (len s =? 13)%Z && all_chars is_digit (slice_from 4 s).

End Normalizer.

(** ** Root-prefix sanitiser ([a.py] line 628, [app.py] line 631) *)

Module Sanitizer.
Import PyStr.

(** The character class [[A-Za-z0-9._-]]. *)
Definition is_safe (c : ascii) : bool :=
  in_range 65 90 c || in_range 97 122 c || in_range 48 57 c
  || Ascii.eqb c "."%char || Ascii.eqb c "_"%char || Ascii.eqb c "-"%char.

(** [re.sub(r"[^A-Za-z0-9._-]+", "_", s)]: the scan goes left to right and
    the greedy [+] swallows a whole run of characters outside the class;
    [in_run] says that the previous character already belonged to the run
    being replaced. *)
Fixpoint re_sub_unsafe_runs (in_run : bool) (s : string) : string :=
  match s with
  | EmptyString => EmptyString
  | String c r =>
      if is_safe c then String c (re_sub_unsafe_runs false r)
      else if in_run then re_sub_unsafe_runs true r
      else String "_"%char (re_sub_unsafe_runs true r)
  end.

Definition re_sub_unsafe (s : string) : string := re_sub_unsafe_runs false s.

(** [a.py]: [re.sub(..., (batch_root_name or default_batch_name)).strip("_")
    or default_batch_name] *)
Definition safe_root (batch_root_name default_batch_name : string) : string :=
  or_else
    (strip_chars "_" (re_sub_unsafe (or_else batch_root_name default_batch_name)))
    default_batch_name.

(** [app.py]: [re.sub(..., custom_zip_prefix).strip("_") or "Batch_Outputs"] *)
Definition safe_root_app (custom_zip_prefix : string) : string :=
  or_else (strip_chars "_" (re_sub_unsafe custom_zip_prefix)) "Batch_Outputs".

End Sanitizer.

(** ** vCard serialisers *)

Module VCard.
Import PyStr.

(** A value stored in a person [dict]. *)
Inductive pyval := PyNone | PyStr (s : string).

(** [p.get(key, "") or ""] *)
Definition get_or_empty (p : gmap string pyval) (key : string) : string :=
  match p !! key with
  | Some (PyStr s) => s
  | Some PyNone | None => ""
  end.

(** [f"{p.get(key, '')}"]: [None] is formatted as its name. *)
Definition get_fmt (p : gmap string pyval) (key : string) : string :=
  match p !! key with
  | Some (PyStr s) => s
  | Some PyNone => "None"
  | None => ""
  end.

Definition nl : string := String (ascii_of_N 10) EmptyString.

(** [vcard_from_person] of [a.py] (lines 153-174) and [app.py]. *)
Definition vcard_from_person (p : gmap string pyval) : string :=
  let first := get_or_empty p "First_Name" in
  let last  := get_or_empty p "Last_Name" in
  let org   := get_or_empty p "Company" in
  let title := get_or_empty p "Role" in
  let tel   := get_or_empty p "Mobile" in
  let email := get_or_empty p "Email" in
  let url   := get_or_empty p "Website" in
  let loc   := get_or_empty p "Location" in
  let notes := get_or_empty p "Notes" in
  "BEGIN:VCARD" +:+ nl +:+
  "VERSION:3.0" +:+ nl +:+
  "N:" +:+ last +:+ ";" +:+ first +:+ nl +:+
  "FN:" +:+ first +:+ " " +:+ last +:+ nl +:+
  "ORG:" +:+ org +:+ nl +:+
  "TITLE:" +:+ title +:+ nl +:+
  "TEL;TYPE=CELL:" +:+ tel +:+ nl +:+
  "EMAIL:" +:+ email +:+ nl +:+
  "URL:" +:+ url +:+ nl +:+
  "ADR;TYPE=WORK:" +:+ loc +:+ nl +:+
  "NOTE:" +:+ notes +:+ nl +:+
  "END:VCARD".

(** The [Person] dataclass of [app2.py]. *)
Record Person := {
  FirstName : string; LastName : string; Arabic_Name : string;
  Role : string; Email : string; Phone : string; Mobile : string;
  Company : string; Department : string; Website : string;
  LinkedIn : string; Address : string
}.

(** [Person.full_name_en] *)
Definition full_name_en (p : Person) : string :=
  strip (FirstName p +:+ " " +:+ LastName p).

(** [lines.append(x)] under [if cond:] *)
Definition append_if (cond : string) (x : string) (lines : list string)
  : list string :=
  if truthy cond then lines ++ [x] else lines.

(** [vcard_from_person] of [app2.py] (lines 110-131). *)
Definition vcard_from_person_app2 (p : Person) : string :=
  let lines := [
    "BEGIN:VCARD";
    "VERSION:3.0";
    "N:" +:+ LastName p +:+ ";" +:+ FirstName p +:+ ";;;";
    "FN:" +:+ full_name_en p;
    "TITLE:" +:+ Role p;
    "ORG:" +:+ Company p ] in
  let lines := append_if (Email p) ("EMAIL;TYPE=INTERNET:" +:+ Email p) lines in
  let lines := append_if (Mobile p) ("TEL;TYPE=CELL:" +:+ Mobile p) lines in
  let lines := append_if (Phone p) ("TEL;TYPE=WORK,VOICE:" +:+ Phone p) lines in
  let lines := append_if (Website p) ("URL:" +:+ Website p) lines in
  let lines := append_if (Address p)
                 ("ADR;TYPE=WORK:;;" +:+ Address p +:+ ";;;;") lines in
  let lines := lines ++ ["END:VCARD"] in
  join nl lines.

(** Reading a vCard back: [text.split("\n")] and, for a content line, the
    property name in front of the first colon. *)
Definition is_newline (c : ascii) : bool := Ascii.eqb c (ascii_of_N 10).

Fixpoint split_lines (s : string) : list string :=
  match s with
  | EmptyString => [EmptyString]
  | String c r =>
      if is_newline c then EmptyString :: split_lines r
      else match split_lines r with
           | [] => [String c EmptyString]
           | line :: lines => String c line :: lines
           end
  end.

Definition newline_free (s : string) : bool :=
  all_chars (fun c => negb (is_newline c)) s.

Fixpoint property_name (line : string) : string :=
  match line with
  | EmptyString => EmptyString
  | String c r =>
      if Ascii.eqb c ":"%char then EmptyString else String c (property_name r)
  end.

Definition property_names (text : string) : list string :=
  property_name <$> split_lines text.

(** The keys [vcard_from_person] reads. *)
Definition vcard_keys : list string :=
  ["First_Name"; "Last_Name"; "Company"; "Role"; "Mobile"; "Email";
   "Website"; "Location"; "Notes"].

(** A [Person] of [app2.py] with a name, a role and a company only. *)
Definition person_without_contacts : Person :=
  {| FirstName := "Sara"; LastName := "Ali"; Arabic_Name := "";
     Role := "Analyst"; Email := ""; Phone := ""; Mobile := "";
     Company := "Alraedah"; Department := ""; Website := "";
     LinkedIn := ""; Address := "" |}.

End VCard.

(** ** The pandas operations used by the batch handlers *)

Module Pandas.

Inductive exn :=
| TypeError (msg : string)
| ValueError (msg : string)
| AttributeError (msg : string).

(** Outcome of a computation that may raise. *)
Inductive result (A : Type) :=
| Ok (a : A)
| Raise (e : exn).
Arguments Ok {A} a.
Arguments Raise {A} e.

Definition bind {A B} (r : result A) (k : A -> result B) : result B :=
  match r with
  | Ok a => k a
  | Raise e => Raise e
  end.

Notation "'let!' x ':=' r 'in' k" := (bind r (fun x => k))
  (at level 10, x name, r at level 100, k at level 200).

(** Values passed as keyword arguments. *)
Inductive kwval := KwBool (b : bool) | KwStr (s : string).

Inductive keep_mode := KeepFirst | KeepLast | KeepFalse.

(** Binding the keyword arguments of [Series.duplicated(self, keep="first")]:
    a keyword other than [keep] is a [TypeError], as for every Python
    function without [**kwargs]. *)
Definition bind_duplicated_args (kw : list (string * kwval)) : result keep_mode :=
  match kw with
  | [] => Ok KeepFirst
  | (name, v) :: _ =>
      if String.eqb name "keep" then
        match v with
        | KwBool false => Ok KeepFalse
        | KwStr "first" => Ok KeepFirst
        | KwStr "last" => Ok KeepLast
        | _ => Raise (ValueError "keep must be either first, last or False")
        end
      else Raise (TypeError
        ("duplicated() got an unexpected keyword argument '" +:+ name +:+ "'"))
  end.

(** The error of a call [duplicated(Keep=...)]. *)
Definition keep_type_error : exn :=
  TypeError "duplicated() got an unexpected keyword argument 'Keep'".

(** Number of occurrences of [x] in the column. *)
Definition occurrences (x : string) (col : list string) : nat :=
  length (filter (λ y, y = x) col).

Fixpoint seen_before (acc : list string) (col : list string) : list bool :=
  match col with
  | [] => []
  | x :: r => bool_decide (x ∈ acc) :: seen_before (x :: acc) r
  end.

(** The boolean column computed by [duplicated]. *)
Definition duplicated_mask (k : keep_mode) (col : list string) : list bool :=
  match k with
  | KeepFalse => (λ x, bool_decide (2 ≤ occurrences x col)) <$> col
  | KeepFirst => seen_before [] col
  | KeepLast => reverse (seen_before [] (reverse col))
  end.

Definition Series_duplicated (col : list string) (kw : list (string * kwval))
  : result (list bool) :=
  let! k := bind_duplicated_args kw in Ok (duplicated_mask k col).

(** Public attributes of a [Series] that the handlers touch. *)
Definition Series_attrs : list string :=
  ["apply"; "copy"; "duplicated"; "map"; "ne"; "tolist"].

(** [hasattr(series, name)] *)
Definition hasattr_Series (name : string) : bool :=
  bool_decide (name ∈ Series_attrs).

(** [series.ne("")] *)
Definition Series_ne_empty (col : list string) : list bool :=
  (λ x, negb (String.eqb x "")) <$> col.

(** [a & b], [a | b] and [~a] on boolean columns of one frame. *)
Definition mask_and (a b : list bool) : list bool := zip_with andb a b.
Definition mask_or (a b : list bool) : list bool := zip_with orb a b.
Definition mask_not (a : list bool) : list bool := negb <$> a.

(** A frame is the list of its rows, each with its index label;
    [frame_of] gives the rows the labels [0, 1, ...] of a [RangeIndex]. *)
Definition frame_of {A} (rows : list A) : list (nat * A) :=
  imap (λ i r, (i, r)) rows.

(** [frame[mask]]: the rows whose label carries [True] in the mask. *)
Definition select {A} (mask : list bool) (frame : list (nat * A))
  : list (nat * A) :=
  filter (λ ir, mask !! ir.1 = Some true) frame.

(** [frame.index] *)
Definition index {A} (frame : list (nat * A)) : list nat := frame.*1.

(** [a.union(b)] on indexes, as the set of labels. *)
Definition Index_union (a b : list nat) : gset nat :=
  list_to_set a ∪ list_to_set b.

(** [frame.index.isin(other)] *)
Definition Index_isin (idx other : list nat) : list bool :=
  (λ i, bool_decide (i ∈ other)) <$> idx.

End Pandas.

(** ** Records of a batch *)

Module Batch.
Import PyStr Normalizer Pandas VCard.

(** One row of the mapped table (the canonical columns). *)
Record Row := {
  First_Name : string; Last_Name : string; Arabic_Name : string;
  Department : string; Role : string; Company : string;
  Mobile : string; Email : string; Website : string;
  Location : string; Google_Maps_Link : string; Notes : string
}.

(** A row with the four computed contact columns. *)
Record NRow := {
  raw : Row;
  Email_Normalized : string; Email_Valid : bool;
  Mobile_Normalized : string; Mobile_Valid : bool
}.

Definition normalize_row (r : Row) : NRow :=
  let '(en, eok) := normalize_email (Email r) in
  let '(mn, mok) := normalize_saudi_mobile (Mobile r) in
  {| raw := r; Email_Normalized := en; Email_Valid := eok;
     Mobile_Normalized := mn; Mobile_Valid := mok |}.

(** Rendering and QR encoding are external: a payload records the call. *)
Inductive summary_line :=
| SumTitle
| SumRule
| SumTotal (n : Z)
| SumClean (n : Z)
| SumInvalid (n : Z)
| SumDuplicates (n : Z)
| SumBlank
| SumInvalidHeader
| SumInvalidEntry (who : string) (reasons : list string)
| SumDuplicateHeader
| SumDuplicateEntry (who email mobile : string)
| SumGeneratedOn (timestamp : string).

Inductive payload :=
| signature_en_pdf (p : gmap string pyval)
| signature_ar_pdf (p : gmap string pyval)
| business_card_pdf (p : gmap string pyval)
| make_qr_png_bytes (data : string)
| make_qr_svg_bytes (data : string)
| text (s : string)
| summary_text (lines : list summary_line)
| to_csv (rows : list NRow).

(** A [ZipFile] opened for writing: the entries in the order written. *)
Definition zipfile := list (string * payload).

Definition writestr (zipf : zipfile) (path : string) (data : payload) : zipfile :=
  zipf ++ [(path, data)].

(** [_join_root] *)
Definition _join_root (root path : string) : string :=
  let root := strip_chars "/\" (strip (or_else root "")) in
  if truthy root then root +:+ "/" +:+ path else path.

Definition write_full_package_to_zip (zipf : zipfile) (p : gmap string pyval)
    (root : string) : zipfile :=
  let first := get_or_empty p "First_Name" in
  let last  := get_or_empty p "Last_Name" in
  let role  := get_or_empty p "Role" in
  let comp  := get_or_empty p "Company" in
  let folder :=
    replace_char " " "_" (first +:+ "_" +:+ last +:+ "_" +:+ role +:+ "_" +:+ comp) in
  let zipf := writestr zipf (_join_root root (folder +:+ "/Signature_EN.pdf"))
                (signature_en_pdf p) in
  let zipf := writestr zipf (_join_root root (folder +:+ "/Signature_AR.pdf"))
                (signature_ar_pdf p) in
  let zipf := writestr zipf (_join_root root (folder +:+ "/BusinessCard.pdf"))
                (business_card_pdf p) in
  let vcf := vcard_from_person p in
  let base := replace_char " " "_" (first +:+ "_" +:+ last) in
  let zipf := writestr zipf (_join_root root (folder +:+ "/QR/" +:+ base +:+ ".png"))
                (make_qr_png_bytes vcf) in
  let zipf := writestr zipf (_join_root root (folder +:+ "/QR/" +:+ base +:+ ".svg"))
                (make_qr_svg_bytes vcf) in
  writestr zipf (_join_root root (folder +:+ "/QR/" +:+ base +:+ ".vcf")) (text vcf).

Definition write_card_flat (zipf : zipfile) (p : gmap string pyval)
    (root : string) : zipfile :=
  let base :=
    replace_char " " "_" (get_fmt p "First_Name" +:+ "_" +:+ get_fmt p "Last_Name") in
  writestr zipf (_join_root root ("BusinessCards_Flat/" +:+ base +:+ ".pdf"))
    (business_card_pdf p).

Definition write_signature_flat (zipf : zipfile) (p : gmap string pyval)
    (root : string) : zipfile :=
  let base :=
    replace_char " " "_" (get_fmt p "First_Name" +:+ "_" +:+ get_fmt p "Last_Name") in
  let zipf := writestr zipf (_join_root root ("Signatures_Flat/" +:+ base +:+ "_EN.pdf"))
                (signature_en_pdf p) in
  writestr zipf (_join_root root ("Signatures_Flat/" +:+ base +:+ "_AR.pdf"))
    (signature_ar_pdf p).

(** The [person] dict built from a row in both batch loops; on string
    cells [row.get(k, "") or ""] and [row.get(k, "")] agree. *)
Definition person_of_row (r : NRow) : gmap string pyval :=
  <["First_Name" := PyStr (First_Name (raw r))]> (
  <["Last_Name" := PyStr (Last_Name (raw r))]> (
  <["Arabic_Name" := PyStr (Arabic_Name (raw r))]> (
  <["Department" := PyStr (Department (raw r))]> (
  <["Role" := PyStr (Role (raw r))]> (
  <["Company" := PyStr (Company (raw r))]> (
  <["Mobile" := PyStr (Mobile_Normalized r)]> (
  <["Email" := PyStr (Email_Normalized r)]> (
  <["Website" := PyStr (Website (raw r))]> (
  <["Location" := PyStr (Location (raw r))]> (
  <["Notes" := PyStr (Notes (raw r))]> ∅)))))))))).

(** The three [if ... in download_options] writes of a batch loop body. *)
Definition write_selected (download_options : list string) (zipf : zipfile)
    (person : gmap string pyval) (root : string) : zipfile :=
  let zipf := if bool_decide ("Full Package (All Files)" ∈ download_options)
              then write_full_package_to_zip zipf person root else zipf in
  let zipf := if bool_decide ("Business Cards Only" ∈ download_options)
              then write_card_flat zipf person root else zipf in
  if bool_decide ("Email Signatures Only" ∈ download_options)
  then write_signature_flat zipf person root else zipf.

End Batch.

(** ** Cells of an uploaded sheet

    [a.py] reads the sheet without [fillna]: a cell of its table is a
    string, or a value of another type, such as a number, a date or the
    float [nan] that stands for a blank cell. *)

Module Sheet.
Import PyStr Pandas.

(** A value that is not a string is described by what the handler asks of
    it: the name of its type, its truth value and its [str()].  No such
    value has a [strip] method. *)
Inductive cell :=
| Str (s : string)
| Obj (type_name : string) (truth : bool) (str : string).

(** The [nan] of a blank cell: a float, true, printed as [nan]. *)
Definition NaN : cell := Obj "float" true "nan".

(** The error of [v.strip()] on a value of the type [type_name]. *)
Definition no_strip (type_name : string) : exn :=
  AttributeError ("'" +:+ type_name +:+ "' object has no attribute 'strip'").

(** One row of the mapped table of line 597, the twelve canonical
    columns. *)
Record Row := {
  First_Name : cell; Last_Name : cell; Arabic_Name : cell;
  Department : cell; Role : cell; Company : cell;
  Mobile : cell; Email : cell; Website : cell;
  Location : cell; Google_Maps_Link : cell; Notes : cell
}.

(** The row after lines 599-611: the two name columns replaced, and the
    four computed columns.  [Mobile_Normalized] holds the cell itself when
    the mobile is not valid. *)
Record Mapped := {
  row : Row;
  Email_Normalized : string; Email_Valid : bool;
  Mobile_Normalized : cell; Mobile_Valid : bool
}.

(** A row whose cells are all strings. *)
Definition text_row (r : Batch.Row) : Row :=
  {| First_Name := Str (Batch.First_Name r);
     Last_Name := Str (Batch.Last_Name r);
     Arabic_Name := Str (Batch.Arabic_Name r);
     Department := Str (Batch.Department r);
     Role := Str (Batch.Role r);
     Company := Str (Batch.Company r);
     Mobile := Str (Batch.Mobile r);
     Email := Str (Batch.Email r);
     Website := Str (Batch.Website r);
     Location := Str (Batch.Location r);
     Google_Maps_Link := Str (Batch.Google_Maps_Link r);
     Notes := Str (Batch.Notes r) |}.

(** The cells that lines 599-605 pass to [normalize_name] and to
    [normalize_email], in the order in which they are read: the column of
    the first names, that of the last names, that of the emails. *)
Definition stripped_cells (rows : list Row) : list cell :=
  (First_Name <$> rows) ++ (Last_Name <$> rows) ++ (Email <$> rows).

(** The type of the first cell that is true and no string, if there is
    one: the two functions call [strip] on it. *)
Fixpoint first_unstrippable (cells : list cell) : option string :=
  match cells with
  | [] => None
  | Obj type_name true _ :: _ => Some type_name
  | _ :: cells => first_unstrippable cells
  end.

(** A function of a cell that fails exactly on the true cells that are no
    strings, with the error of [strip]. *)
Definition strips {B} (f : cell -> result B) : Prop :=
  forall v, match v with
            | Obj type_name true _ => f v = Raise (no_strip type_name)
            | _ => exists y, f v = Ok y
            end.

End Sheet.

(** ** Batch upload handler of [a.py] (lines 572-689)

    The model starts from the mapped table of line 597, after the column
    aliases are resolved; lines 614-686 are modelled on a table of
    strings. *)

Module HandlerA.
Import PyStr Normalizer Pandas VCard Batch.

Record Classification := {
  mapped : list (nat * NRow);
  duplicates : list (nat * NRow);
  invalids : list (nat * NRow);
  total : Z;
  invalid_count : Z;
  duplicate_count : Z;
  clean_count : Z
}.

(** Line 613, the right-hand side of the first [dup_email] assignment. *)
Definition dup_email_expr (email_normalized : list string) : result (list bool) :=
  if hasattr_Series "duplicated"
  then Series_duplicated email_normalized [("Keep", KwBool false)]
  else Series_duplicated email_normalized [("keep", KwBool false)].

(** Lines 614-620, entered with the value of [dup_email] from line 613. *)
Definition classify_from (dup_email : list bool) (mapped : list (nat * NRow))
  : result Classification :=
  let col {A} (f : NRow -> A) := (λ ir, f ir.2) <$> mapped in
  let dup_email := mask_and dup_email (Series_ne_empty (col Email_Normalized)) in
  let! dm := Series_duplicated (col Mobile_Normalized) [("keep", KwBool false)] in
  let dup_mobile := mask_and dm (Series_ne_empty (col Mobile_Normalized)) in
  let duplicates := select (mask_or dup_email dup_mobile) mapped in
  let invalids :=
    select (mask_or (mask_not (col Email_Valid)) (mask_not (col Mobile_Valid)))
      mapped in
  let total := Z.of_nat (length mapped) in
  let invalid_count := Z.of_nat (length invalids) in
  let duplicate_count := Z.of_nat (length duplicates) in
  let clean_count :=
    (total - Z.of_nat (size (Index_union (index invalids) (index duplicates))))%Z in
  Ok {| mapped := mapped; duplicates := duplicates; invalids := invalids;
        total := total; invalid_count := invalid_count;
        duplicate_count := duplicate_count; clean_count := clean_count |}.

Section Contacts.

(** [str.capitalize] has values outside the one-byte strings (on [ÿ] and
    on [µ]); the handler is read for any function in its place. *)
Variable capitalize : string -> string.

(** [normalize_name] (lines 150-151): the stripped and capitalised name,
    or the empty string for a false value. *)
Definition normalize_name (name : Sheet.cell) : result string :=
  match name with
  | Sheet.Str s => Ok (if truthy s then capitalize (strip s) else "")
  | Sheet.Obj type_name truth _ =>
      if truth then Raise (Sheet.no_strip type_name) else Ok ""
  end.

(** [normalize_email] on a cell: a value that is not a string is either
    false, or true and without [strip]. *)
Definition normalize_email_cell (email : Sheet.cell) : result (string * bool) :=
  match email with
  | Sheet.Str s => Ok (normalize_email s)
  | Sheet.Obj type_name truth _ =>
      if truth then Raise (Sheet.no_strip type_name) else Ok ("", false)
  end.

(** [normalize_saudi_mobile] on a cell: the rules read [str(mobile)], and
    the last line returns the cell itself. *)
Definition normalize_saudi_mobile_cell (mobile : Sheet.cell) : Sheet.cell * bool :=
  match mobile with
  | Sheet.Str s => let '(n, ok) := normalize_saudi_mobile s in (Sheet.Str n, ok)
  | Sheet.Obj _ truth str =>
      if truth then
        let '(n, ok) := normalize_saudi_mobile str in
        if ok then (Sheet.Str n, true) else (mobile, false)
      else (Sheet.Str "", false)
  end.

(** [series.apply(f)], and the loops over [series.tolist()] of lines
    603-605: the column is read in order and the first error ends it. *)
Fixpoint Series_apply {A B} (f : A -> result B) (col : list A)
  : result (list B) :=
  match col with
  | [] => Ok []
  | v :: col =>
      let! y := f v in
      let! ys := Series_apply f col in
      Ok (y :: ys)
  end.

(** Lines 599-611: the two name columns, then the email column, then the
    mobile column. *)
Definition normalized_table (rows : list Sheet.Row)
  : result (list (nat * Sheet.Mapped)) :=
  let! first := Series_apply normalize_name (Sheet.First_Name <$> rows) in
  let! last := Series_apply normalize_name (Sheet.Last_Name <$> rows) in
  let! email := Series_apply normalize_email_cell (Sheet.Email <$> rows) in
  let mobile := normalize_saudi_mobile_cell <$> (Sheet.Mobile <$> rows) in
  Ok (frame_of
        (zip_with
           (λ r cols,
              let '(f, (l, (e, m))) := cols in
              {| Sheet.row :=
                   {| Sheet.First_Name := Sheet.Str f;
                      Sheet.Last_Name := Sheet.Str l;
                      Sheet.Arabic_Name := Sheet.Arabic_Name r;
                      Sheet.Department := Sheet.Department r;
                      Sheet.Role := Sheet.Role r;
                      Sheet.Company := Sheet.Company r;
                      Sheet.Mobile := Sheet.Mobile r;
                      Sheet.Email := Sheet.Email r;
                      Sheet.Website := Sheet.Website r;
                      Sheet.Location := Sheet.Location r;
                      Sheet.Google_Maps_Link := Sheet.Google_Maps_Link r;
                      Sheet.Notes := Sheet.Notes r |};
                 Sheet.Email_Normalized := e.1; Sheet.Email_Valid := e.2;
                 Sheet.Mobile_Normalized := m.1; Sheet.Mobile_Valid := m.2 |})
           rows (zip first (zip last (zip email mobile))))).

(** Lines 599-613: the table and the value of [dup_email] after its first
    assignment; the summary and the archive come after these lines. *)
Definition table_and_dup_email (rows : list Sheet.Row)
  : result (list (nat * Sheet.Mapped) * list bool) :=
  let! mapped := normalized_table rows in
  let! dup_email :=
    dup_email_expr ((λ ir, Sheet.Email_Normalized ir.2) <$> mapped) in
  Ok (mapped, dup_email).

End Contacts.

Definition who (r : NRow) : string :=
  strip (First_Name (raw r) +:+ " " +:+ Last_Name (raw r)).

Definition reasons (r : NRow) : list string :=
  (if Email_Valid r then [] else ["Email"])
  ++ (if Mobile_Valid r then [] else ["Mobile"]).

(** Lines 627-684, under the [Generate ZIP Outputs] button. *)
Definition generate_zip (c : Classification) (download_options : list string)
    (batch_root_name default_batch_name now : string) : zipfile :=
  let safe_root := Sanitizer.safe_root batch_root_name default_batch_name in
  let summary :=
    [SumTitle; SumRule; SumTotal (total c); SumClean (clean_count c);
     SumInvalid (invalid_count c); SumDuplicates (duplicate_count c); SumBlank] in
  let summary :=
    if (invalid_count c =? 0)%Z then summary
    else summary ++ [SumInvalidHeader]
         ++ ((λ ir, SumInvalidEntry (who ir.2) (reasons ir.2)) <$> invalids c)
         ++ [SumBlank] in
  let summary :=
    if (duplicate_count c =? 0)%Z then summary
    else summary ++ [SumDuplicateHeader]
         ++ ((λ ir, SumDuplicateEntry (who ir.2) (Email_Normalized ir.2)
                      (Mobile_Normalized ir.2)) <$> duplicates c)
         ++ [SumBlank] in
  let summary := summary ++ [SumGeneratedOn now] in
  let zipf := writestr [] (_join_root safe_root "Batch_Summary.txt")
                (summary_text summary) in
  let zipf :=
    if (invalid_count c =? 0)%Z then zipf
    else writestr zipf (_join_root safe_root "Reports/Invalid_Entries.csv")
           (to_csv (invalids c).*2) in
  let zipf :=
    if (duplicate_count c =? 0)%Z then zipf
    else writestr zipf (_join_root safe_root "Reports/Duplicates.csv")
           (to_csv (duplicates c).*2) in
  foldl (λ zipf ir, write_selected download_options zipf (person_of_row ir.2) safe_root)
    zipf (mapped c).

End HandlerA.

(** ** Batch upload handler of [app.py] (lines 560-685)

    The model starts from the renamed table, whose empty cells [fillna]
    has turned into empty strings. *)

Module HandlerApp.
Import PyStr Normalizer Pandas VCard Batch.

Record Classification := {
  mapped : list (nat * NRow);
  duplicates : list (nat * NRow);
  invalids : list (nat * NRow);
  clean_df : list (nat * NRow);
  total : Z;
  clean_count : Z;
  invalid_count : Z;
  duplicate_count : Z
}.

(** Unpacking the transposed list of pairs into two columns (the [zip]
    with a starred argument): with no pair there is nothing to unpack. *)
Definition unzip_columns (pairs : list (string * bool))
  : result (list string * list bool) :=
  match pairs with
  | [] => Raise (ValueError "not enough values to unpack (expected 2, got 0)")
  | _ => Ok (pairs.*1, pairs.*2)
  end.

(** Lines 586-601.  The two unpacking assignments fill the four computed
    columns, which [normalize_row] gives row by row. *)
Definition classify (rows : list Row) : result Classification :=
  let! mobile := unzip_columns ((λ r, normalize_saudi_mobile (Mobile r)) <$> rows) in
  let! email := unzip_columns ((λ r, normalize_email (Email r)) <$> rows) in
  let mapped := frame_of (normalize_row <$> rows) in
  let col {A} (f : NRow -> A) := (λ ir, f ir.2) <$> mapped in
  let total := Z.of_nat (length mapped) in
  let! dup_mobile := Series_duplicated (col Mobile_Normalized) [("keep", KwBool false)] in
  let! dup_email := Series_duplicated (col Email_Normalized) [("keep", KwBool false)] in
  let duplicates := select (mask_or dup_mobile dup_email) mapped in
  let invalids :=
    select (mask_or (mask_not (col Email_Valid)) (mask_not (col Mobile_Valid)))
      mapped in
  let clean_df :=
    select (mask_and (mask_not (Index_isin (index mapped) (index duplicates)))
                     (mask_not (Index_isin (index mapped) (index invalids))))
      mapped in
  Ok {| mapped := mapped; duplicates := duplicates; invalids := invalids;
        clean_df := clean_df; total := total;
        clean_count := Z.of_nat (length clean_df);
        invalid_count := Z.of_nat (length invalids);
        duplicate_count := Z.of_nat (length duplicates) |}.

(** Lines 637-678, under the [Generate ZIP Outputs] button; [None] is
    [st.stop()] after the warning that nothing is left to generate. *)
Definition generate_zip (c : Classification) (download_options : list string)
    (custom_zip_prefix now : string) : option zipfile :=
  let safe_root := Sanitizer.safe_root_app custom_zip_prefix in
  if (clean_count c =? 0)%Z then None else
  let summary_lines :=
    [SumTitle; SumRule; SumTotal (total c); SumClean (clean_count c);
     SumInvalid (invalid_count c); SumDuplicates (duplicate_count c); SumBlank;
     SumGeneratedOn now; SumBlank] in
  let zipf := writestr [] (safe_root +:+ "/Batch_Summary.txt")
                (summary_text summary_lines) in
  Some (foldl (λ zipf ir,
           let person := person_of_row ir.2 in
           let folder_name :=
             safe_root +:+ "/" +:+ get_fmt person "First_Name" +:+ "_"
             +:+ get_fmt person "Last_Name" in
           write_selected download_options zipf person folder_name)
         zipf (clean_df c)).

(** One upload followed by one click on the button. *)
Definition batch_upload (rows : list Row) (download_options : list string)
    (custom_zip_prefix now : string) : result (option zipfile) :=
  let! c := classify rows in
  Ok (generate_zip c download_options custom_zip_prefix now).

End HandlerApp.

(** ** The duplicate partition as worded in the specification, section 4.3 *)

Module SpecDetector.
Import Pandas Batch.

(** A non-empty value that appears at least twice in its column. *)
Definition collides (v : string) (col : list string) : bool :=
  negb (String.eqb v "") && bool_decide (2 ≤ occurrences v col).

Definition spec_duplicate (table : list NRow) (r : NRow) : bool :=
  collides (Email_Normalized r) (Email_Normalized <$> table)
  || collides (Mobile_Normalized r) (Mobile_Normalized <$> table).

Definition spec_duplicates (table : list NRow) : list (nat * NRow) :=
  filter (λ ir, spec_duplicate table ir.2 = true) (frame_of table).

End SpecDetector.

(** ** The three-row scenario of the specification, section 8 *)

Module Scenario.
Import Batch.

Definition blank_row : Row :=
  {| First_Name := ""; Last_Name := ""; Arabic_Name := ""; Department := "";
     Role := ""; Company := ""; Mobile := ""; Email := ""; Website := "";
     Location := ""; Google_Maps_Link := ""; Notes := "" |}.

Definition with_contact (first email mobile : string) : Row :=
  {| First_Name := first; Last_Name := "Test"; Arabic_Name := "";
     Department := "IT"; Role := "Analyst"; Company := "Alraedah";
     Mobile := mobile; Email := email; Website := ""; Location := "";
     Google_Maps_Link := ""; Notes := "" |}.

(** Row A is valid, row B repeats the email of A, row C has a bad mobile. *)
Definition row_A : Row := with_contact "A" "a@x.sa" "0512345678".
Definition row_B : Row := with_contact "B" "a@x.sa" "0587654321".
Definition row_C : Row := with_contact "C" "c@x.sa" "12345".

Definition three_rows : list Row := [row_A; row_B; row_C].

(** Row D is valid and shares nothing with the others. *)
Definition row_D : Row := with_contact "D" "d@x.sa" "0511111111".

(** Two rows without email and with different valid mobiles. *)
Definition no_email_rows : list Row :=
  [with_contact "A" "" "0512345678"; with_contact "B" "" "0587654321"].

End Scenario.

(** ** A sheet with a blank cell *)

Module BlankCells.

(** Row A of the scenario with its email cell left blank. *)
Definition blank_email_row : Sheet.Row :=
  {| Sheet.First_Name := Sheet.Str "A"; Sheet.Last_Name := Sheet.Str "Test";
     Sheet.Arabic_Name := Sheet.NaN; Sheet.Department := Sheet.Str "IT";
     Sheet.Role := Sheet.Str "Analyst"; Sheet.Company := Sheet.Str "Alraedah";
     Sheet.Mobile := Sheet.Str "0512345678"; Sheet.Email := Sheet.NaN;
     Sheet.Website := Sheet.NaN; Sheet.Location := Sheet.NaN;
     Sheet.Google_Maps_Link := Sheet.NaN; Sheet.Notes := Sheet.NaN |}.

End BlankCells.

(** ** Column aliases of the [a.py] upload (lines 575-596) *)

Module Mapper.

Definition aliases : list (string * list string) :=
  [ ("First_Name", ["First_Name"; "First Name"; "First"; "FName"]);
    ("Last_Name", ["Last_Name"; "Last Name"; "Last"; "LName"]);
    ("Arabic_Name", ["Arabic_Name"; "Arabic Name"; "Name_AR"; "AR_Name"]);
    ("Department", ["Department"; "Dept"]);
    ("Role", ["Role"; "Position"; "Title"]);
    ("Company", ["Company"; "Org"; "Organization"]);
    ("Mobile", ["Mobile"; "Phone"; "Cell"; "Mobile_Normalized"]);
    ("Email", ["Email"; "E-mail"; "Mail"; "Email_Normalized"]);
    ("Website", ["Website"; "Site"; "URL"]);
    ("Location", ["Location"; "Address"; "City"]);
    ("Google_Maps_Link", ["Google_Maps_Link"; "Maps"; "Google Maps Link"; "GMaps"]);
    ("Notes", ["Notes"; "Remark"; "Comment"]) ].

(** [resolve_col(frame, cands, default)], on the column names of the frame. *)
Fixpoint resolve_col (columns cands : list string) (default : option string)
  : option string :=
  match cands with
  | [] => default
  | c :: cands' =>
      if bool_decide (c ∈ columns) then Some c
      else resolve_col columns cands' default
  end.

(** The source column chosen for each canonical field; [None] stands for
    the column of empty strings. *)
Definition resolve_all (columns : list string) : list (string * option string) :=
  (λ kc, (kc.1, resolve_col columns kc.2 None)) <$> aliases.

(** [TEMPLATE_HEADERS] (line 383), the header row of the Excel template. *)
Definition TEMPLATE_HEADERS : list string :=
  ["First_Name"; "Last_Name"; "Arabic_Name"; "Department"; "Role";
   "Company"; "Mobile"; "Email"; "Website"; "Location"; "Google_Maps_Link";
   "Notes"].

End Mapper.

(** ** A batch with two employees of one name *)

Module Namesakes.
Import Pandas Batch.

Definition namesake_rows : list Row :=
  [Scenario.with_contact "Sara" "sara.a@x.sa" "0512345678";
   Scenario.with_contact "Sara" "sara.b@x.sa" "0587654321"].

(** The table of the two rows with nothing selected as invalid or
    duplicate. *)
Definition namesake_batch : HandlerA.Classification :=
  {| HandlerA.mapped := frame_of (normalize_row <$> namesake_rows);
     HandlerA.duplicates := [];
     HandlerA.invalids := [];
     HandlerA.total := 2;
     HandlerA.invalid_count := 0;
     HandlerA.duplicate_count := 0;
     HandlerA.clean_count := 2 |}.

End Namesakes.

(** ** A batch whose names hold spaces, as [normalize_name] leaves them *)

Module SpacedNames.
Import Pandas Batch.

Definition spaced_row : Row :=
  {| First_Name := "Mary ann"; Last_Name := "Al saud"; Arabic_Name := "";
     Department := "Risk"; Role := "Senior Analyst";
     Company := "Alraedah Finance"; Mobile := "0512345678";
     Email := "mary.ann@x.sa"; Website := ""; Location := "";
     Google_Maps_Link := ""; Notes := "" |}.

(** The table of that one row, with nothing selected as invalid or
    duplicate. *)
Definition spaced_batch : HandlerA.Classification :=
  {| HandlerA.mapped := frame_of (normalize_row <$> [spaced_row]);
     HandlerA.duplicates := [];
     HandlerA.invalids := [];
     HandlerA.total := 1;
     HandlerA.invalid_count := 0;
     HandlerA.duplicate_count := 0;
     HandlerA.clean_count := 1 |}.

End SpacedNames.

(** ** Text of the batch summary of [a.py] and sizes of its archive *)

Module Reports.
Import PyStr Batch.

(** Line 645: [', '.join(reasons) or 'Unknown'] *)
Definition reasons_text (r : NRow) : string :=
  or_else (join ", " (HandlerA.reasons r)) "Unknown".

(** A character other than the space. *)
Definition no_space (c : ascii) : bool := negb (Ascii.eqb c " ").

(** Number of files the selected scenarios give one person. *)
Definition files_per_person (download_options : list string) : nat :=
  (if bool_decide ("Full Package (All Files)" ∈ download_options) then 6 else 0)
  + (if bool_decide ("Business Cards Only" ∈ download_options) then 1 else 0)
  + (if bool_decide ("Email Signatures Only" ∈ download_options) then 2 else 0).

End Reports.

(** ** The suite of [app2.py]: slugs, Excel loading and packaging *)

Module App2.
Import PyStr VCard.

(** [str.isalnum()] on the one-byte code points: letters, digits and the
    numeric characters of the Latin-1 supplement. *)
Definition is_alnum (c : ascii) : bool :=
  in_range 48 57 c || in_range 65 90 c || in_range 97 122 c
  || (code c =? 170)%N || (code c =? 178)%N || (code c =? 179)%N
  || (code c =? 181)%N || (code c =? 185)%N || (code c =? 186)%N
  || in_range 188 190 c || in_range 192 214 c || in_range 216 246 c
  || in_range 248 255 c.

(** [Person.safe_slug] (lines 102-105) *)
Definition safe_slug (p : Person) : string :=
  let base :=
    replace_char " " "_" (FirstName p +:+ "_" +:+ LastName p +:+ "_" +:+ Role p) in
  filter_chars (fun ch => is_alnum ch || Ascii.eqb ch "_" || Ascii.eqb ch "-") base.

(** The characters a slug may hold. *)
Definition slug_char (ch : ascii) : bool :=
  is_alnum ch || Ascii.eqb ch "_" || Ascii.eqb ch "-".

(** A sheet after [fillna]: its header and, for each row, the text of the
    cell under a column name. *)
Record DataFrame := {
  columns : list string;
  rows : list (string -> string)
}.

Definition expected : list string :=
  ["FirstName"; "LastName"; "Arabic_Name"; "Role"; "Email"; "Phone";
   "Mobile"; "Company"; "Department"; "Website"; "LinkedIn"; "Address"].

(** What [people_from_excel] gives: the people and the frame, or the
    [ValueError] that lists the missing columns. *)
Inductive loaded :=
| People (people : list Person) (df : DataFrame)
| MissingColumns (missing : list string).

Definition person_of_cells (row : string -> string) : Person :=
  {| FirstName := strip (row "FirstName");
     LastName := strip (row "LastName");
     Arabic_Name := strip (row "Arabic_Name");
     Role := strip (row "Role");
     Email := strip (row "Email");
     Phone := strip (row "Phone");
     Mobile := strip (row "Mobile");
     Company := strip (row "Company");
     Department := strip (row "Department");
     Website := strip (row "Website");
     LinkedIn := strip (row "LinkedIn");
     Address := strip (row "Address") |}.

(** [people_from_excel] (lines 261-288) *)
Definition people_from_excel (df : DataFrame) : loaded :=
  let missing := filter (λ c, c ∉ columns df) expected in
  match missing with
  | _ :: _ => MissingColumns missing
  | [] => People (person_of_cells <$> rows df) df
  end.

(** The four entries of [SCENARIOS], in their order. *)
Inductive scenario := FullPackage | CardsOnly | SignaturesOnly | MasterFolder.

#[global] Instance scenario_eq_dec : EqDecision scenario.
Proof. solve_decision. Defined.

(** Entries written for one person under the chosen scenarios. *)
Definition entries_per_person (chosen_scenarios : list scenario) : nat :=
  (if bool_decide (FullPackage ∈ chosen_scenarios) then 7 else 0)
  + (if bool_decide (CardsOnly ∈ chosen_scenarios) then 1 else 0)
  + (if bool_decide (SignaturesOnly ∈ chosen_scenarios) then 1 else 0)
  + (if bool_decide (MasterFolder ∈ chosen_scenarios) then 9 else 0).

(** Rendering is external: an asset records the call that makes it. *)
Inductive asset :=
| make_qr_png_bytes (data fill_color : string)
| make_qr_svg_bytes (data : string)
| vcf_text (data : string)
| make_signature_png (p : Person) (include_qr : bool) (qr_color : string)
| make_business_card_pdf (p : Person) (include_qr : bool) (qr_color : string)
| empty_entry.

Definition writestr (z : list (string * asset)) (path : string) (data : asset)
  : list (string * asset) :=
  z ++ [(path, data)].

(** The files of the per-employee folder [emp_dir]. *)
Definition write_employee_folder (z : list (string * asset)) (emp_dir slug : string)
    (qr_png qr_svg vcf sig_png card_pdf : asset) : list (string * asset) :=
  let qr_dir := emp_dir +:+ "QR_Codes/" in
  let z := writestr z qr_dir empty_entry in
  let z := writestr z emp_dir empty_entry in
  let z := writestr z (qr_dir +:+ slug +:+ ".png") qr_png in
  let z := writestr z (qr_dir +:+ slug +:+ ".svg") qr_svg in
  let z := writestr z (qr_dir +:+ slug +:+ ".vcf") vcf in
  let z := writestr z (emp_dir +:+ "Email_Signature.png") sig_png in
  writestr z (emp_dir +:+ "Business_Card.pdf") card_pdf.

(** The body of the loop of [build_zip_for_people] (lines 354-402). *)
Definition write_person (TODAY : string) (include_qr_on_design : bool)
    (qr_color : string) (chosen_scenarios : list scenario)
    (z : list (string * asset)) (p : Person) : list (string * asset) :=
  let base_full := "Generation_" +:+ TODAY +:+ "/" in
  let base_cards := "Business_Cards_" +:+ TODAY +:+ "/" in
  let base_sigs := "Email_Signatures_" +:+ TODAY +:+ "/" in
  let base_master := "Master_" +:+ TODAY +:+ "/" in
  let m_full := base_master +:+ "Full_Package/" in
  let m_cards := base_master +:+ "Business_Cards_Only/" in
  let m_sigs := base_master +:+ "Email_Signatures_Only/" in
  let slug := safe_slug p in
  let vcf := vcard_from_person_app2 p in
  let qr_png := make_qr_png_bytes vcf "black" in
  let qr_svg := make_qr_svg_bytes vcf in
  let sig_png := make_signature_png p include_qr_on_design qr_color in
  let card_pdf := make_business_card_pdf p include_qr_on_design qr_color in
  let z :=
    if bool_decide (FullPackage ∈ chosen_scenarios)
    then write_employee_folder z (base_full +:+ slug +:+ "/") slug
           qr_png qr_svg (vcf_text vcf) sig_png card_pdf
    else z in
  let z :=
    if bool_decide (CardsOnly ∈ chosen_scenarios)
    then writestr z (base_cards +:+ slug +:+ ".pdf") card_pdf else z in
  let z :=
    if bool_decide (SignaturesOnly ∈ chosen_scenarios)
    then writestr z (base_sigs +:+ slug +:+ ".png") sig_png else z in
  if bool_decide (MasterFolder ∈ chosen_scenarios)
  then
    let z := write_employee_folder z (m_full +:+ slug +:+ "/") slug
               qr_png qr_svg (vcf_text vcf) sig_png card_pdf in
    let z := writestr z (m_cards +:+ slug +:+ ".pdf") card_pdf in
    writestr z (m_sigs +:+ slug +:+ ".png") sig_png
  else z.

(** [build_zip_for_people] (lines 337-405); [TODAY] is the date string
    fixed when the module is loaded. *)
Definition build_zip_for_people (TODAY : string) (people : list Person)
    (include_qr_on_design : bool) (qr_color : string)
    (chosen_scenarios : list scenario) : list (string * asset) :=
  foldl (write_person TODAY include_qr_on_design qr_color chosen_scenarios)
    [] people.

End App2.

(** * Properties *)

(** ** Facts about the string primitives *)

Module PyStrFacts.
Import PyStr.

Lemma len_empty : len "" = 0%Z.
Proof. reflexivity. Qed.

Lemma len_String a s : len (String a s) = (1 + len s)%Z.
Proof. unfold len. cbn [String.length]. lia. Qed.

Lemma len_nonneg s : (0 <= len s)%Z.
Proof. unfold len. lia. Qed.

Lemma app_empty_l (t : string) : "" +:+ t = t.
Proof. reflexivity. Qed.

Lemma app_String a (s t : string) : String a s +:+ t = String a (s +:+ t).
Proof. reflexivity. Qed.

Ltac str_simpl := rewrite ?app_String, ?app_empty_l in *.

Lemma len_app s t : len (s +:+ t) = (len s + len t)%Z.
Proof.
  induction s as [|a s IH]; str_simpl.
  - rewrite len_empty. lia.
  - rewrite !len_String, IH. lia.
Qed.

Lemma all_chars_filter f s : all_chars f (filter_chars f s) = true.
Proof.
  induction s as [|a s IH]; [reflexivity|].
  cbn [filter_chars]. destruct (f a) eqn:Fa; [|exact IH].
  cbn [all_chars]. now rewrite Fa, IH.
Qed.

Lemma filter_chars_all f s : all_chars f s = true -> filter_chars f s = s.
Proof.
  induction s as [|a s IH]; [reflexivity|].
  cbn [all_chars filter_chars]. intros [Fa Fs]%andb_true_iff.
  rewrite Fa, IH by exact Fs. reflexivity.
Qed.

Lemma all_chars_app f s t : all_chars f (s +:+ t) = all_chars f s && all_chars f t.
Proof.
  induction s as [|a s IH]; [reflexivity|].
  str_simpl. cbn [all_chars]. now rewrite IH, andb_assoc.
Qed.

Lemma all_chars_tail f p r : all_chars f (p +:+ r) = true -> all_chars f r = true.
Proof. rewrite all_chars_app. now intros [_ H]%andb_true_iff. Qed.

Lemma filter_chars_app f s t : filter_chars f (s +:+ t) = filter_chars f s +:+ filter_chars f t.
Proof.
  induction s as [|a s IH]; [reflexivity|].
  str_simpl. cbn [filter_chars]. destruct (f a); str_simpl; now rewrite IH.
Qed.

Lemma startswith_app p r : startswith p (p +:+ r) = true.
Proof.
  induction p as [|a p IH]; [reflexivity|].
  str_simpl. cbn [startswith]. now rewrite Ascii.eqb_refl, IH.
Qed.

Lemma startswith_String a p b s :
  startswith (String a p) (String b s) = Ascii.eqb a b && startswith p s.
Proof. reflexivity. Qed.

Lemma startswith_empty s : startswith "" s = true.
Proof. reflexivity. Qed.

(** Evaluate the comparisons of two literal characters in the goal. *)
Ltac eval_char_tests :=
  repeat match goal with
    | |- context [Ascii.eqb ?a ?b] =>
        let v := eval vm_compute in (Ascii.eqb a b) in
        match v with
        | true => change (Ascii.eqb a b) with true
        | false => change (Ascii.eqb a b) with false
        end
    end.

Ltac startswith_simpl :=
  rewrite ?startswith_String, ?startswith_empty;
  eval_char_tests; cbn [andb orb].

Lemma startswith_inv p s : startswith p s = true -> exists r, s = p +:+ r.
Proof.
  revert s. induction p as [|a p IH]; intros s H.
  - now exists s.
  - destruct s as [|b s]; [discriminate|].
    cbn [startswith] in H. apply andb_true_iff in H as [Hab Hp].
    apply Ascii.eqb_eq in Hab as ->. destruct (IH _ Hp) as [r ->].
    now exists r.
Qed.

Lemma count_nonneg c s : (0 <= count c s)%Z.
Proof.
  induction s as [|a s IH]; cbn [count]; [lia|].
  destruct (Ascii.eqb a c); lia.
Qed.

Lemma contains_count c s : contains c s = (0 <? count c s)%Z.
Proof.
  induction s as [|a s IH]; [reflexivity|].
  cbn [contains count]. pose proof (count_nonneg c s).
  destruct (Ascii.eqb a c); cbn [orb].
  - symmetry. apply Z.ltb_lt. lia.
  - rewrite IH. f_equal.
Qed.

End PyStrFacts.

(** ** Stripping *)

Module StripFacts.
Import PyStr PyStrFacts.

Lemma lstrip_by_split f s :
  exists l, s = l +:+ lstrip_by f s /\ all_chars f l = true.
Proof.
  induction s as [|a s (l & E & Hl)].
  - now exists "".
  - cbn [lstrip_by]. destruct (f a) eqn:Fa.
    + exists (String a l). str_simpl. cbn [all_chars].
      rewrite Fa, Hl. split; [now f_equal | reflexivity].
    + now exists "".
Qed.

Lemma lstrip_by_head f s :
  match lstrip_by f s with
  | EmptyString => True
  | String c _ => f c = false
  end.
Proof.
  induction s as [|a s IH]; [exact I|].
  cbn [lstrip_by]. destruct (f a) eqn:Fa; [exact IH | exact Fa].
Qed.

Lemma rstrip_by_split f s :
  exists r, s = rstrip_by f s +:+ r /\ all_chars f r = true.
Proof.
  induction s as [|a s (r & E & Hr)].
  - now exists "".
  - cbn [rstrip_by]. destruct (rstrip_by f s) as [|b t] eqn:R.
    + destruct (f a) eqn:Fa.
      * exists (String a r). str_simpl. cbn [all_chars].
        rewrite Fa, Hr. split; [now rewrite E at 1 | reflexivity].
      * exists r. str_simpl. split; [now rewrite E at 1 | exact Hr].
    + exists r. str_simpl. split; [|exact Hr].
      f_equal. rewrite E at 1. now str_simpl.
Qed.

Lemma rstrip_by_head f a s :
  f a = false -> exists t, rstrip_by f (String a s) = String a t.
Proof.
  intros Fa. cbn [rstrip_by]. rewrite Fa.
  destruct (rstrip_by f s); eauto.
Qed.

Lemma rstrip_by_last f c s :
  f c = true -> endswith_char c (rstrip_by f s) = false.
Proof.
  intros Fc. induction s as [|a s IH]; [reflexivity|].
  cbn [rstrip_by]. destruct (rstrip_by f s) as [|b t] eqn:R.
  - destruct (f a) eqn:Fa; [reflexivity|].
    cbn [endswith_char]. destruct (Ascii.eqb_spec a c) as [->|]; congruence.
  - cbn [endswith_char] in *. exact IH.
Qed.

(** [strip_by f] removes a block of [f]-characters at each end, and what
    is left neither starts nor ends with one. *)
Lemma strip_by_split f s :
  exists l r, s = l +:+ strip_by f s +:+ r
              /\ all_chars f l = true /\ all_chars f r = true.
Proof.
  unfold strip_by.
  destruct (lstrip_by_split f s) as (l & El & Hl).
  destruct (rstrip_by_split f (lstrip_by f s)) as (r & Er & Hr).
  exists l, r. repeat split; [|assumption..].
  now rewrite <- Er.
Qed.

Lemma strip_by_head f c s :
  f c = true -> startswith (String c "") (strip_by f s) = false.
Proof.
  intros Fc. unfold strip_by. pose proof (lstrip_by_head f s) as H.
  destruct (lstrip_by f s) as [|a t]; [reflexivity|].
  destruct (rstrip_by_head f a t H) as [t' ->].
  cbn [startswith]. destruct (Ascii.eqb_spec c a) as [->|]; [congruence|].
  reflexivity.
Qed.

Lemma strip_by_last f c s :
  f c = true -> endswith_char c (strip_by f s) = false.
Proof. intros Fc. now apply rstrip_by_last. Qed.

End StripFacts.

(** ** The field normaliser *)

Module NormalizerFacts.
Import PyStr Normalizer PyStrFacts StripFacts.

Lemma plus_not_digit s : re_sub_nondigits (String "+" s) = re_sub_nondigits s.
Proof. reflexivity. Qed.

(** The sixth test of [normalize_saudi_mobile] reads the digit-stripped
    string, which holds no [+]: the test never succeeds. *)
Lemma digits_no_plus966 c :
  all_chars is_digit c = true -> startswith "+966" c = false.
Proof.
  destruct c as [|a r]; [reflexivity|].
  cbn [all_chars]. intros [Ha _]%andb_true_iff.
  cbn [startswith]. destruct (Ascii.eqb "+" a) eqn:E; [|reflexivity].
  apply Ascii.eqb_eq in E as <-. discriminate Ha.
Qed.

Lemma plus966_test_dead s : startswith "+966" (re_sub_nondigits s) = false.
Proof. apply digits_no_plus966, all_chars_filter. Qed.

(** A test [startswith p c && (len c =? k)] that holds exposes the prefix. *)
Lemma rule_test_true p k c :
  startswith p c && (len c =? k)%Z = true ->
  exists r, c = p +:+ r /\ len r = (k - len p)%Z.
Proof.
  intros [P L]%andb_true_iff. apply startswith_inv in P as [r ->].
  exists r. split; [reflexivity|].
  apply Z.eqb_eq in L. rewrite len_app in L. lia.
Qed.

Lemma len_test_true s k : len s = k -> (len s =? k)%Z = true.
Proof. apply Z.eqb_eq. Qed.

Lemma len_test_false s k : len s <> k -> (len s =? k)%Z = false.
Proof. apply Z.eqb_neq. Qed.

(** Decide the length tests of the goal from the length [L] of the
    unknown tail. *)
Ltac eval_len_tests L :=
  repeat match goal with
    | |- context [(len ?s =? ?k)%Z] =>
        first
          [ rewrite (len_test_true s k) by (rewrite ?len_String; lia)
          | rewrite (len_test_false s k) by (rewrite ?len_String; lia) ]
    end.

Ltac expose_prefix H Hc r L Hr :=
  apply rule_test_true in H as (r & -> & L);
  pose proof (all_chars_tail _ _ _ Hc) as Hr;
  rewrite ?len_String, ?len_empty in L;
  str_simpl; cbn [slice_from]; eval_len_tests L; startswith_simpl.

Ltac close_valid d Hr :=
  right; exists d; str_simpl;
  split; [|split; [|split]];
  [ reflexivity
  | rewrite ?len_String; lia
  | cbn [all_chars]; rewrite Hr; reflexivity
  | rewrite ?orb_true_r; reflexivity ].

(** Every outcome of [normalize_saudi_mobile]: the input is returned
    unchanged and invalid when none of the rules 1 to 5 matches, and a
    number in the form [+966] followed by nine digits when one does. *)
Lemma normalize_saudi_mobile_cases (mobile : string) :
  (normalize_saudi_mobile mobile = (mobile, false)
   /\ spec_rules_1_5 mobile = false)
  \/ (exists d, normalize_saudi_mobile mobile = ("+966" +:+ d, true)
        /\ len d = 9%Z /\ all_chars is_digit d = true
        /\ spec_rules_1_5 mobile = true).
Proof.
  destruct mobile as [|a0 s0]; [left; split; reflexivity|].
  unfold normalize_saudi_mobile, spec_rules_1_5, spec_rule1, spec_rule2,
    spec_rule3, spec_rule4, spec_rule5.
  cbn [truthy negb].
  pose proof (all_chars_filter is_digit (String a0 s0)) as Hc.
  unfold re_sub_nondigits in *.
  generalize dependent (filter_chars is_digit (String a0 s0)). intros c Hc.
  generalize (String a0 s0). intros mobile. cbn zeta.
  destruct (startswith "00966" c && (len c =? 14)%Z) eqn:E1.
  - expose_prefix E1 Hc r L Hr.
    destruct (startswith "5" r && true); close_valid r Hr.
  - cbn [orb].
    destruct (startswith "9665" c && (len c =? 12)%Z) eqn:E2.
    { expose_prefix E2 Hc r L Hr. close_valid (String "5" r) Hr. }
    destruct (startswith "05" c && (len c =? 10)%Z) eqn:E3.
    { expose_prefix E3 Hc r L Hr. close_valid (String "5" r) Hr. }
    destruct (startswith "5" c && (len c =? 9)%Z) eqn:E4.
    { expose_prefix E4 Hc r L Hr. close_valid (String "5" r) Hr. }
    destruct (startswith "966" c && (len c =? 12)%Z) eqn:E5.
    { expose_prefix E5 Hc r L Hr. close_valid r Hr. }
    rewrite (digits_no_plus966 c Hc). left. split; reflexivity.
Qed.

(** A number already in canonical form is accepted as it is (through the
    rule for [9665...] or the rule for [966...], on its twelve digits). *)
Lemma normalize_saudi_mobile_canonical d :
  len d = 9%Z -> all_chars is_digit d = true ->
  normalize_saudi_mobile ("+966" +:+ d) = ("+966" +:+ d, true).
Proof.
  intros L Hd. unfold normalize_saudi_mobile, re_sub_nondigits.
  rewrite filter_chars_app, (filter_chars_all _ _ Hd).
  change (filter_chars is_digit "+966") with "966".
  str_simpl. cbn [truthy negb]. cbn zeta.
  eval_len_tests L. rewrite andb_false_r. lazy iota.
  eval_len_tests L. startswith_simpl.
  destruct (startswith "5" d && true); reflexivity.
Qed.

Lemma plus966_form_intro d :
  len d = 9%Z -> all_chars is_digit d = true ->
  is_plus966_form ("+966" +:+ d) = true.
Proof.
  intros L Hd. unfold is_plus966_form. str_simpl. cbn [slice_from].
  eval_len_tests L. startswith_simpl. exact Hd.
Qed.

(** C1, as amended.  Whenever the digit-stripped input matches one of the
    rules 1 to 5 of section 4.1, [normalize_saudi_mobile] returns
    [(normalized, true)] with [normalized] of the exact shape [+966]
    followed by nine digits (thirteen characters); whenever the input
    matches none of the rules 1 to 6 it returns the raw string unchanged,
    paired with [false]; the empty input gives the empty string and
    [false]. *)
Theorem normalize_saudi_mobile_rules (raw : string) :
  (spec_rules_1_5 raw = true ->
   exists n, normalize_saudi_mobile raw = (n, true) /\ is_plus966_form n = true)
  /\ (spec_rules_1_6 raw = false -> normalize_saudi_mobile raw = (raw, false))
  /\ normalize_saudi_mobile "" = ("", false).
Proof.
  destruct (normalize_saudi_mobile_cases raw)
    as [[E R]|(d & E & L & Hd & R)].
  - split; [|split]; [congruence | intros _; exact E | reflexivity].
  - split; [|split].
    + intros _. exists ("+966" +:+ d). split; [exact E|].
      now apply plus966_form_intro.
    + unfold spec_rules_1_6. rewrite R. discriminate.
    + reflexivity.
Qed.

Lemma normalize_saudi_mobile_rules_witness :
  (exists n, normalize_saudi_mobile "0512345678" = (n, true)
             /\ is_plus966_form n = true)
  /\ normalize_saudi_mobile "n/a" = ("n/a", false).
Proof.
  split.
  - apply (proj1 (normalize_saudi_mobile_rules "0512345678")). reflexivity.
  - apply (proj1 (proj2 (normalize_saudi_mobile_rules "n/a"))). reflexivity.
Defined.

(** C1 as stated fails: the string [+966abcdefghi] matches rule 6 of
    section 4.1 (it starts with [+966] and has thirteen characters), yet it
    is not returned as valid. *)
Lemma normalize_saudi_mobile_rule6_counterexample :
  spec_rules_1_6 "+966abcdefghi" = true
  /\ ~ (exists n, normalize_saudi_mobile "+966abcdefghi" = (n, true)
                  /\ is_plus966_form n = true).
Proof.
  split; [reflexivity|]. intros (n & E & _). vm_compute in E. discriminate E.
Qed.

(** C2, where the code departs from it.  An input that starts with
    [+966], has thirteen characters and is rewritten by none of the rules
    1 to 5 is valid under rule 6 of section 4.1; the code returns it
    unchanged with [false], because its sixth test reads the digit-stripped
    string.  The string [+966 51234567] is such an input. *)
Theorem normalize_saudi_mobile_rule6_unreachable (raw : string) :
  spec_rule6 raw = true -> spec_rules_1_5 raw = false ->
  normalize_saudi_mobile raw = (raw, false).
Proof.
  intros _ R.
  destruct (normalize_saudi_mobile_cases raw) as [[E _]|(d & _ & _ & _ & R')];
    [exact E | congruence].
Qed.

Lemma normalize_saudi_mobile_rule6_unreachable_witness :
  spec_rule6 "+966 51234567" = true
  /\ spec_rules_1_5 "+966 51234567" = false
  /\ normalize_saudi_mobile "+966 51234567" = ("+966 51234567", false).
Proof.
  split; [reflexivity|]. split; [reflexivity|].
  apply (normalize_saudi_mobile_rule6_unreachable "+966 51234567");
    reflexivity.
Defined.

(** C8.  [normalize_saudi_mobile] is idempotent on its normalised output:
    for every input on which it reports [true], normalising the returned
    string again yields the same string. *)
Theorem normalize_saudi_mobile_idempotent (x : string) :
  snd (normalize_saudi_mobile x) = true ->
  fst (normalize_saudi_mobile (fst (normalize_saudi_mobile x)))
  = fst (normalize_saudi_mobile x).
Proof.
  intros V.
  destruct (normalize_saudi_mobile_cases x) as [[E _]|(d & E & L & Hd & _)].
  - rewrite E in V. discriminate V.
  - rewrite E. cbn [fst]. now rewrite normalize_saudi_mobile_canonical.
Qed.

Lemma normalize_saudi_mobile_idempotent_witness :
  snd (normalize_saudi_mobile "00966 51 234 5678") = true
  /\ fst (normalize_saudi_mobile (fst (normalize_saudi_mobile "00966 51 234 5678")))
     = "+966512345678".
Proof.
  split; [reflexivity|].
  rewrite (normalize_saudi_mobile_idempotent "00966 51 234 5678"); reflexivity.
Defined.

(** C9.  [normalize_email] trims and lowercases its input and reports it
    valid exactly when the trimmed, lowercased string holds one [@]; the
    empty input gives the empty string and [false]; the three examples of
    the specification come out as stated.  Trimming removes a block of
    white space at each end and leaves none there. *)
Theorem normalize_email_one_at (email : string) :
  normalize_email email
  = (lower (strip email), (count "@" (lower (strip email)) =? 1)%Z)
  /\ (exists l r, email = l +:+ strip email +:+ r
                  /\ all_chars is_space l = true
                  /\ all_chars is_space r = true)
  /\ (forall c, is_space c = true ->
        startswith (String c "") (strip email) = false
        /\ endswith_char c (strip email) = false)
  /\ normalize_email "" = ("", false)
  /\ normalize_email "Foo@Bar.COM" = ("foo@bar.com", true)
  /\ snd (normalize_email "a@b@c") = false.
Proof.
  split; [|split; [|split]]; [| | |repeat split].
  - destruct email as [|a s]; [reflexivity|].
    unfold normalize_email. cbn [truthy negb]. cbn zeta. f_equal.
    rewrite contains_count.
    destruct (Z.eqb_spec (count "@" (lower (strip (String a s)))) 1) as [->|];
      [reflexivity | apply andb_false_r].
  - apply strip_by_split.
  - intros c Hc. split; [now apply strip_by_head | now apply strip_by_last].
Qed.

End NormalizerFacts.

(** ** The root-prefix sanitiser *)

Module SanitizerFacts.
Import PyStr PyStrFacts StripFacts Sanitizer.

Lemma runs_safe_head b c r :
  is_safe c = true ->
  re_sub_unsafe_runs b (String c r) = String c (re_sub_unsafe_runs false r).
Proof. intros H. cbn [re_sub_unsafe_runs]. now rewrite H. Qed.

(** Inside a run, the rest of the run is swallowed. *)
Lemma runs_swallow u r :
  all_chars (λ c, negb (is_safe c)) u = true ->
  re_sub_unsafe_runs true (u +:+ r) = re_sub_unsafe_runs true r.
Proof.
  induction u as [|a u IH]; [reflexivity|].
  cbn [all_chars]. intros [Ha Hu]%andb_true_iff. str_simpl.
  cbn [re_sub_unsafe_runs]. apply negb_true_iff in Ha. rewrite Ha. auto.
Qed.

(** Where a run ends, the scan is back in its initial state. *)
Lemma runs_end r :
  r = "" \/ (exists c r', r = String c r' /\ is_safe c = true) ->
  re_sub_unsafe_runs true r = re_sub_unsafe_runs false r.
Proof.
  intros [->|(c & r' & -> & Hc)]; [reflexivity|].
  now rewrite !runs_safe_head.
Qed.

Lemma runs_all_safe b s : all_chars is_safe (re_sub_unsafe_runs b s) = true.
Proof.
  revert b. induction s as [|a s IH]; intros b; [reflexivity|].
  cbn [re_sub_unsafe_runs]. destruct (is_safe a) eqn:Sa.
  - cbn [all_chars]. now rewrite Sa, IH.
  - destruct b; [apply IH|]. cbn [all_chars]. now rewrite IH.
Qed.

(** C7.  The sanitiser keeps the characters of [[A-Za-z0-9._-]] as they
    are, replaces every maximal run of other characters by one underscore,
    strips the underscores at both ends and falls back to the default batch
    name when nothing is left; [Q1 Hires / 2024!] becomes [Q1_Hires_2024].
    The same holds for the [app.py] variant with its fixed default. *)
Theorem safe_root_sanitizes (prefix default : string) :
  let collapsed := re_sub_unsafe (or_else prefix default) in
  let trimmed := strip_chars "_" collapsed in
  (forall c r, is_safe c = true ->
     re_sub_unsafe (String c r) = String c (re_sub_unsafe r))
  /\ (forall u r, truthy u = true ->
        all_chars (λ c, negb (is_safe c)) u = true ->
        r = "" \/ (exists c r', r = String c r' /\ is_safe c = true) ->
        re_sub_unsafe (u +:+ r) = "_" +:+ re_sub_unsafe r)
  /\ all_chars is_safe collapsed = true
  /\ (exists l r, collapsed = l +:+ trimmed +:+ r
                  /\ all_chars (Ascii.eqb "_") l = true
                  /\ all_chars (Ascii.eqb "_") r = true)
  /\ startswith "_" trimmed = false
  /\ endswith_char "_" trimmed = false
  /\ safe_root prefix default = (if truthy trimmed then trimmed else default)
  /\ safe_root_app prefix
     = (let t := strip_chars "_" (re_sub_unsafe prefix) in
        if truthy t then t else "Batch_Outputs")
  /\ safe_root "Q1 Hires / 2024!" default = "Q1_Hires_2024"
  /\ safe_root_app "Q1 Hires / 2024!" = "Q1_Hires_2024".
Proof.
  intros collapsed trimmed.
  split; [|split; [|split; [|split; [|split; [|split]]]]].
  - intros c r H. apply runs_safe_head, H.
  - intros u r Hu Hall Hr. destruct u as [|a u]; [discriminate|].
    cbn [all_chars] in Hall. apply andb_true_iff in Hall as [Ha Hall].
    apply negb_true_iff in Ha. unfold re_sub_unsafe. str_simpl.
    cbn [re_sub_unsafe_runs]. rewrite Ha. f_equal.
    rewrite runs_swallow by exact Hall. now apply runs_end.
  - apply runs_all_safe.
  - destruct (strip_by_split (λ c, contains c "_") collapsed)
      as (l & r & E & Hl & Hr).
    exists l, r. split; [exact E|].
    assert (Heq : forall s, all_chars (λ c, contains c "_") s = true ->
                            all_chars (Ascii.eqb "_") s = true).
    { induction s as [|a s IH]; [reflexivity|]. cbn [all_chars contains].
      rewrite orb_false_r. intros [-> H]%andb_true_iff.
      now apply IH. }
    split; now apply Heq.
  - apply (strip_by_head (λ c, contains c "_")). reflexivity.
  - apply (strip_by_last (λ c, contains c "_")). reflexivity.
  - repeat split.
Qed.

Lemma safe_root_sanitizes_witness :
  re_sub_unsafe (" / " +:+ "2024") = "_" +:+ re_sub_unsafe "2024".
Proof.
  apply (proj1 (proj2 (safe_root_sanitizes "Q1" "Batch")) " / " "2024");
    [reflexivity | reflexivity |].
  right. exists "2"%char, "024". split; reflexivity.
Defined.

End SanitizerFacts.

(** ** The vCard serialisers *)

Module VCardFacts.
Import PyStr PyStrFacts VCard.

Lemma app_assoc (s t u : string) : (s +:+ t) +:+ u = s +:+ t +:+ u.
Proof.
  induction s as [|a s IH]; [reflexivity|]. str_simpl. now rewrite IH.
Qed.

Lemma split_lines_nonempty s : split_lines s <> [].
Proof.
  destruct s as [|c r]; [discriminate|]. cbn [split_lines].
  destruct (is_newline c); [discriminate|].
  destruct (split_lines r); discriminate.
Qed.

Lemma split_lines_last l : newline_free l = true -> split_lines l = [l].
Proof.
  unfold newline_free. induction l as [|c l IH]; [reflexivity|].
  cbn [all_chars split_lines]. intros [Hc Hl]%andb_true_iff.
  apply negb_true_iff in Hc. now rewrite Hc, IH.
Qed.

Lemma split_lines_line l rest :
  newline_free l = true ->
  split_lines (l +:+ nl +:+ rest) = l :: split_lines rest.
Proof.
  unfold newline_free. induction l as [|c l IH].
  - reflexivity.
  - cbn [all_chars]. intros [Hc Hl]%andb_true_iff. apply negb_true_iff in Hc.
    str_simpl. cbn [split_lines]. now rewrite Hc, IH.
Qed.

(** Splitting undoes joining when no line holds a newline. *)
Lemma split_lines_join (lines : list string) :
  lines <> [] -> Forall (λ l, newline_free l = true) lines ->
  split_lines (join nl lines) = lines.
Proof.
  induction lines as [|l lines IH]; [congruence|]. intros _ H.
  apply Forall_cons in H as [Hl H].
  destruct lines as [|l' lines].
  - now apply split_lines_last.
  - change (join nl (l :: l' :: lines)) with (l +:+ nl +:+ join nl (l' :: lines)).
    rewrite split_lines_line by exact Hl. f_equal. now apply IH.
Qed.

Lemma newline_free_app s t :
  newline_free (s +:+ t) = newline_free s && newline_free t.
Proof. apply all_chars_app. Qed.

Lemma property_name_String c r :
  property_name (String c r)
  = if Ascii.eqb c ":" then "" else String c (property_name r).
Proof. reflexivity. Qed.

Ltac property_name_simpl :=
  str_simpl;
  repeat (rewrite property_name_String; eval_char_tests; lazy iota).

(** The text of [vcard_from_person] is its twelve lines joined by newlines. *)
Lemma vcard_from_person_lines (p : gmap string pyval) :
  vcard_from_person p
  = join nl
      [ "BEGIN:VCARD";
        "VERSION:3.0";
        "N:" +:+ get_or_empty p "Last_Name" +:+ ";" +:+ get_or_empty p "First_Name";
        "FN:" +:+ get_or_empty p "First_Name" +:+ " " +:+ get_or_empty p "Last_Name";
        "ORG:" +:+ get_or_empty p "Company";
        "TITLE:" +:+ get_or_empty p "Role";
        "TEL;TYPE=CELL:" +:+ get_or_empty p "Mobile";
        "EMAIL:" +:+ get_or_empty p "Email";
        "URL:" +:+ get_or_empty p "Website";
        "ADR;TYPE=WORK:" +:+ get_or_empty p "Location";
        "NOTE:" +:+ get_or_empty p "Notes";
        "END:VCARD" ].
Proof.
  unfold vcard_from_person. cbn [join]. cbn zeta.
  now rewrite !app_assoc.
Qed.

(** C10, as amended.  For every person [dict], the serialiser of [a.py]
    and [app.py] produces the block [BEGIN:VCARD] ... [END:VCARD] whose
    lines are [VERSION], then [N], [FN], [ORG], [TITLE], [TEL;TYPE=CELL],
    [EMAIL], [URL], [ADR;TYPE=WORK], [NOTE] in that order, each filled from
    the matching key and written with an empty value when the key is
    absent, [None] or empty; read back line by line, a block whose values
    hold no newline shows exactly these property names. *)
Theorem vcard_from_person_fields (p : gmap string pyval) :
  vcard_from_person p
  = join nl
      [ "BEGIN:VCARD";
        "VERSION:3.0";
        "N:" +:+ get_or_empty p "Last_Name" +:+ ";" +:+ get_or_empty p "First_Name";
        "FN:" +:+ get_or_empty p "First_Name" +:+ " " +:+ get_or_empty p "Last_Name";
        "ORG:" +:+ get_or_empty p "Company";
        "TITLE:" +:+ get_or_empty p "Role";
        "TEL;TYPE=CELL:" +:+ get_or_empty p "Mobile";
        "EMAIL:" +:+ get_or_empty p "Email";
        "URL:" +:+ get_or_empty p "Website";
        "ADR;TYPE=WORK:" +:+ get_or_empty p "Location";
        "NOTE:" +:+ get_or_empty p "Notes";
        "END:VCARD" ]
  /\ (forall k,
        p !! k = None \/ p !! k = Some PyNone \/ p !! k = Some (PyStr "") ->
        get_or_empty p k = "")
  /\ (Forall (λ k, newline_free (get_or_empty p k) = true) vcard_keys ->
      property_names (vcard_from_person p)
      = ["BEGIN"; "VERSION"; "N"; "FN"; "ORG"; "TITLE"; "TEL;TYPE=CELL";
         "EMAIL"; "URL"; "ADR;TYPE=WORK"; "NOTE"; "END"]).
Proof.
  split; [apply vcard_from_person_lines|]. split.
  - intros k [H|[H|H]]; unfold get_or_empty; now rewrite H.
  - intros H. unfold vcard_keys in H.
    repeat (apply Forall_cons in H as [? H]).
    unfold property_names. rewrite vcard_from_person_lines.
    rewrite split_lines_join; [| discriminate |].
    + cbn [fmap list_fmap]. now property_name_simpl.
    + repeat (apply Forall_cons; split); try apply Forall_nil;
        rewrite ?newline_free_app;
        repeat (apply andb_true_iff; split); try assumption; reflexivity.
Qed.

Lemma vcard_from_person_fields_witness :
  property_names (vcard_from_person (<["Notes" := PyNone]> ∅))
  = ["BEGIN"; "VERSION"; "N"; "FN"; "ORG"; "TITLE"; "TEL;TYPE=CELL";
     "EMAIL"; "URL"; "ADR;TYPE=WORK"; "NOTE"; "END"].
Proof.
  apply (proj2 (proj2 (vcard_from_person_fields (<["Notes" := PyNone]> ∅)))).
  unfold vcard_keys. repeat (apply Forall_cons; split); try apply Forall_nil;
    reflexivity.
Defined.

(** C10 as stated fails on the serialiser of [app2.py]: it writes [TITLE]
    before [ORG], leaves out the lines of the empty contact fields and has
    no [NOTE] line. *)
Lemma vcard_from_person_app2_counterexample :
  property_names (vcard_from_person_app2 person_without_contacts)
  = ["BEGIN"; "VERSION"; "N"; "FN"; "TITLE"; "ORG"; "END"].
Proof. reflexivity. Qed.

End VCardFacts.

(** ** Frames, masks and index sets *)

Module PandasFacts.
Import Pandas.

Lemma index_frame_of {A} (l : list A) : index (frame_of l) = seq 0 (length l).
Proof.
  unfold index, frame_of. rewrite fmap_imap.
  rewrite (imap_ext _ (λ i _, id i)) by done.
  rewrite (imap_seq_0 l id). apply list_fmap_id.
Qed.

Lemma frame_of_NoDup {A} (l : list A) : NoDup (index (frame_of l)).
Proof. rewrite index_frame_of. apply NoDup_seq. Qed.

Lemma elem_of_frame_of {A} (l : list A) ir :
  ir ∈ frame_of l ↔ l !! ir.1 = Some ir.2.
Proof.
  unfold frame_of. rewrite elem_of_lookup_imap. split.
  - intros (i & x & -> & H). exact H.
  - intros H. exists ir.1, ir.2. split; [by destruct ir | exact H].
Qed.

Lemma lookup_frame_of {A} (l : list A) ir :
  ir ∈ frame_of l → frame_of l !! ir.1 = Some ir.
Proof.
  intros H%elem_of_frame_of. unfold frame_of.
  rewrite list_lookup_imap, H. by destruct ir.
Qed.

(** Two filters agree when their tests agree on the elements. *)
Lemma filter_ext_elem {A} (P Q : A → Prop)
    `{!∀ x, Decision (P x)} `{!∀ x, Decision (Q x)} (l : list A) :
  (∀ x, x ∈ l → P x ↔ Q x) → filter P l = filter Q l.
Proof.
  induction l as [|a l IH]; intros Hext; [done|].
  rewrite !filter_cons.
  assert (P a ↔ Q a) as Ha by (apply Hext; left).
  rewrite IH by (intros x Hx; apply Hext; by right).
  destruct (decide (P a)), (decide (Q a)); tauto || done.
Qed.

Lemma select_sublist {A} mask (frame : list (nat * A)) :
  select mask frame `sublist_of` frame.
Proof. apply sublist_filter. Qed.

Lemma index_select_subseteq {A} mask (frame : list (nat * A)) :
  index (select mask frame) ⊆ index frame.
Proof.
  intros i. unfold index, select. rewrite !list_elem_of_fmap.
  intros (ir & -> & [_ H]%list_elem_of_filter). eauto.
Qed.

(** Selecting by a mask computed row by row is filtering by that test. *)
Lemma select_by_row {A} (g : A → bool) (l : list A) :
  select (g <$> l) (frame_of l) = filter (λ ir, g ir.2 = true) (frame_of l).
Proof.
  apply filter_ext_elem. intros ir Hir%elem_of_frame_of.
  rewrite list_lookup_fmap, Hir. cbn.
  split; [by intros [= ->] | by intros ->].
Qed.

(** Rows outside a set of labels, and the set: together the whole frame. *)
Lemma outside_count {A} (frame : list (nat * A)) (U : gset nat) :
  NoDup (index frame) → U ⊆ list_to_set (index frame) →
  length (filter (λ ir, ir.1 ∉ U) frame) + size U = length frame.
Proof.
  unfold index. revert U.
  induction frame as [|[i x] frame IH]; intros U Hnd HU.
  - cbn in HU. assert (U = ∅) as -> by set_solver. by rewrite size_empty.
  - cbn in Hnd, HU. apply NoDup_cons in Hnd as [Hi Hnd].
    rewrite filter_cons. cbn [fst]. destruct (decide (i ∉ U)) as [Hn|Hin].
    + assert (U ⊆ list_to_set frame.*1) as HU' by set_solver.
      pose proof (IH U Hnd HU') as E. cbn [length]. lia.
    + apply dec_stable in Hin.
      assert (filter (λ ir : nat * A, ir.1 ∉ U) frame
              = filter (λ ir : nat * A, ir.1 ∉ U ∖ {[i]}) frame) as ->.
      { apply filter_ext_elem. intros [j y] Hj. cbn.
        assert (j ≠ i).
        { intros ->. apply Hi, list_elem_of_fmap. by exists (i, y). }
        set_solver. }
      assert (size U = S (size (U ∖ {[i]}))) as ->.
      { rewrite (union_difference_L {[i]} U) at 1 by set_solver.
        rewrite size_union by set_solver. by rewrite size_singleton. }
      assert (U ∖ {[i]} ⊆ list_to_set frame.*1) as HU' by set_solver.
      pose proof (IH (U ∖ {[i]}) Hnd HU') as E. cbn [length]. lia.
Qed.

Lemma zip_with_fmap_same {A B C D} (h : B → C → D) (f : A → B) (g : A → C)
    (l : list A) :
  zip_with h (f <$> l) (g <$> l) = (λ x, h (f x) (g x)) <$> l.
Proof. induction l as [|a l IH]; [done|]. cbn. by rewrite IH. Qed.

Lemma column_frame_of {A B} (f : A → B) (l : list A) :
  (λ ir, f ir.2) <$> frame_of l = f <$> l.
Proof.
  unfold frame_of. rewrite fmap_imap.
  rewrite (imap_ext _ (λ _ x, f x)) by done.
  induction l as [|a l IH]; [done|]. cbn. f_equal.
  rewrite <- IH. by apply imap_ext.
Qed.

Lemma Series_duplicated_keep_false col :
  Series_duplicated col [("keep", KwBool false)]
  = Ok (duplicated_mask KeepFalse col).
Proof. reflexivity. Qed.

(** The mask of the rows that are in neither of two selections. *)
Lemma isin_mask_lookup {A} (l : list A) (D I : list nat) ir :
  ir ∈ frame_of l →
  mask_and (mask_not (Index_isin (index (frame_of l)) D))
           (mask_not (Index_isin (index (frame_of l)) I)) !! ir.1 = Some true
  ↔ ir.1 ∉ Index_union I D.
Proof.
  intros Hir. unfold mask_and, mask_not, Index_isin, index.
  rewrite lookup_zip_with, !list_lookup_fmap, (lookup_frame_of l ir Hir).
  cbn. unfold Index_union. rewrite not_elem_of_union, !elem_of_list_to_set.
  do 2 case_bool_decide; cbn; split; (by intros [= ]) || tauto || done.
Qed.

End PandasFacts.

(** ** The batch handlers *)

Module BatchFacts.
Import PyStr Normalizer Pandas VCard Batch PandasFacts SpecDetector Scenario.

Lemma normalize_name_strips capitalize :
  Sheet.strips (HandlerA.normalize_name capitalize).
Proof. intros [s|ty [] s]; cbn; eauto. Qed.

Lemma normalize_email_cell_strips : Sheet.strips HandlerA.normalize_email_cell.
Proof. intros [s|ty [] s]; cbn; eauto. Qed.

(** Such a function, applied to a column, stops at the first of these
    cells. *)
Lemma Series_apply_strips {B} (f : Sheet.cell → result B) col :
  Sheet.strips f →
  match Sheet.first_unstrippable col with
  | Some ty => HandlerA.Series_apply f col = Raise (Sheet.no_strip ty)
  | None => ∃ ys, HandlerA.Series_apply f col = Ok ys
  end.
Proof.
  intros Hf. induction col as [|v col IH]; [by eexists|].
  pose proof (Hf v) as Hv. cbn [HandlerA.Series_apply].
  destruct v as [s|ty [] s]; cbn [Sheet.first_unstrippable].
  - destruct Hv as [y ->]. cbn [bind].
    destruct (Sheet.first_unstrippable col) as [ty|].
    + by rewrite IH.
    + destruct IH as [ys ->]. by eexists.
  - by rewrite Hv.
  - destruct Hv as [y ->]. cbn [bind].
    destruct (Sheet.first_unstrippable col) as [ty'|].
    + by rewrite IH.
    + destruct IH as [ys ->]. by eexists.
Qed.

Lemma first_unstrippable_app a b :
  Sheet.first_unstrippable (a ++ b)
  = match Sheet.first_unstrippable a with
    | Some ty => Some ty
    | None => Sheet.first_unstrippable b
    end.
Proof.
  induction a as [|[s|ty [] s] a IH]; cbn [app Sheet.first_unstrippable]; done.
Qed.

(** Lines 599-611 give a table exactly when the two name columns and the
    email column hold strings and false values only; otherwise they raise
    the [AttributeError] of the first other cell, in the order in which
    the columns are read. *)
Lemma normalized_table_outcome capitalize rows :
  match Sheet.first_unstrippable (Sheet.stripped_cells rows) with
  | Some ty =>
      HandlerA.normalized_table capitalize rows = Raise (Sheet.no_strip ty)
  | None => ∃ mapped, HandlerA.normalized_table capitalize rows = Ok mapped
  end.
Proof.
  unfold Sheet.stripped_cells, HandlerA.normalized_table.
  rewrite !first_unstrippable_app.
  pose proof (Series_apply_strips _ (Sheet.First_Name <$> rows)
                (normalize_name_strips capitalize)) as H1.
  pose proof (Series_apply_strips _ (Sheet.Last_Name <$> rows)
                (normalize_name_strips capitalize)) as H2.
  pose proof (Series_apply_strips _ (Sheet.Email <$> rows)
                normalize_email_cell_strips) as H3.
  destruct (Sheet.first_unstrippable (Sheet.First_Name <$> rows));
    [by rewrite H1|]. destruct H1 as [first ->]. cbn [bind].
  destruct (Sheet.first_unstrippable (Sheet.Last_Name <$> rows));
    [by rewrite H2|]. destruct H2 as [last ->]. cbn [bind].
  destruct (Sheet.first_unstrippable (Sheet.Email <$> rows));
    [by rewrite H3|]. destruct H3 as [email ->]. cbn [bind].
  by eexists.
Qed.

(** C4, as amended.  In [a.py] the expression of line 613 raises a
    [TypeError] on every column: [hasattr] holds for every [Series], so
    the call with the misspelled keyword [Keep] is the one made and the
    call with [keep] is never reached.  A batch whose name and email
    columns hold strings and false values only reaches the line and stops
    there with that [TypeError]; a batch with a true cell that is no
    string in one of these columns, such as the [nan] of a blank cell,
    stops before it, with the [AttributeError] of [strip] on the first
    such cell.  No batch gets past line 613, so that nothing that follows
    it, summary or archive, is ever run. *)
Theorem dup_email_raises_type_error (capitalize : string -> string)
    (rows : list Sheet.Row) :
  hasattr_Series "duplicated" = true
  /\ (forall col, HandlerA.dup_email_expr col = Raise keep_type_error)
  /\ HandlerA.table_and_dup_email capitalize rows
     = Raise (match Sheet.first_unstrippable (Sheet.stripped_cells rows) with
              | Some type_name => Sheet.no_strip type_name
              | None => keep_type_error
              end)
  /\ (forall (T : Type)
             (rest : list (nat * Sheet.Mapped) * list bool -> result T),
        exists e,
          HandlerA.table_and_dup_email capitalize rows = Raise e
          /\ (let! state := HandlerA.table_and_dup_email capitalize rows in
              rest state) = Raise e).
Proof.
  assert (Hexpr : forall col, HandlerA.dup_email_expr col = Raise keep_type_error)
    by reflexivity.
  split; [reflexivity|]. split; [exact Hexpr|].
  pose proof (normalized_table_outcome capitalize rows) as H.
  unfold HandlerA.table_and_dup_email.
  destruct (Sheet.first_unstrippable (Sheet.stripped_cells rows)) as [ty|].
  - rewrite H. cbn [bind]. split; [reflexivity|].
    intros T rest. by eexists.
  - destruct H as [mapped ->]. cbn [bind]. rewrite Hexpr. cbn [bind].
    split; [reflexivity|]. intros T rest. by eexists.
Qed.

(** C4 as stated fails for a sheet with a blank email cell: the handler
    stops at line 604 with the [AttributeError] of [strip] on a float, and
    the expression of line 613 is not evaluated. *)
Lemma blank_email_counterexample :
  exists e,
    (forall capitalize,
       HandlerA.table_and_dup_email capitalize [BlankCells.blank_email_row]
       = Raise e)
    /\ e = AttributeError "'float' object has no attribute 'strip'"
    /\ e <> keep_type_error.
Proof.
  eexists. split; [intros capitalize; reflexivity|].
  split; [reflexivity | discriminate].
Qed.

(** C3, evaluated at a failing input.  Two rows whose only collision is on
    the empty normalised email are no duplicates in the words of section
    4.3; [app.py], which has no test for the empty value, classifies both
    as duplicates, and [a.py] raises before it classifies anything. *)
Theorem duplicates_on_empty_email :
  spec_duplicates (normalize_row <$> no_email_rows) = []
  /\ (exists c, HandlerApp.classify no_email_rows = Ok c
                /\ index (HandlerApp.duplicates c) = [0; 1])
  /\ (forall capitalize,
        HandlerA.table_and_dup_email capitalize (Sheet.text_row <$> no_email_rows)
        = Raise keep_type_error).
Proof.
  split; [reflexivity|]. split; [|intros capitalize; reflexivity].
  eexists. split; reflexivity.
Qed.

(** With the mask that the call [duplicated(keep=False)] computes, the
    rest of the [a.py] classification yields the duplicate partition of
    section 4.3. *)
Lemma classify_from_keep_false (table : list NRow) :
  exists c,
    HandlerA.classify_from
      (duplicated_mask KeepFalse (Email_Normalized <$> table)) (frame_of table)
    = Ok c
    /\ HandlerA.duplicates c = spec_duplicates table.
Proof.
  unfold HandlerA.classify_from. rewrite Series_duplicated_keep_false.
  eexists. split; [reflexivity|]. cbn [HandlerA.duplicates bind].
  unfold spec_duplicates, mask_or, mask_and, Series_ne_empty.
  cbn [duplicated_mask].
  rewrite !column_frame_of, <- !list_fmap_compose, !zip_with_fmap_same.
  rewrite select_by_row.
  apply filter_ext_elem. intros ir _. unfold spec_duplicate, collides, compose.
  by rewrite !(andb_comm (bool_decide _)).
Qed.

(** *** The archive *)

Lemma write_full_package_app zipf p root :
  write_full_package_to_zip zipf p root
  = zipf ++ write_full_package_to_zip [] p root.
Proof.
  unfold write_full_package_to_zip, writestr. cbn zeta.
  rewrite !app_nil_l, <- !(assoc_L (++)). reflexivity.
Qed.

Lemma write_card_flat_app zipf p root :
  write_card_flat zipf p root = zipf ++ write_card_flat [] p root.
Proof. reflexivity. Qed.

Lemma write_signature_flat_app zipf p root :
  write_signature_flat zipf p root = zipf ++ write_signature_flat [] p root.
Proof.
  unfold write_signature_flat, writestr. cbn zeta.
  rewrite !app_nil_l, <- !(assoc_L (++)). reflexivity.
Qed.

(** The writers only append to the archive. *)
Lemma write_selected_app opts zipf p root :
  write_selected opts zipf p root = zipf ++ write_selected opts [] p root.
Proof.
  unfold write_selected. cbn zeta.
  repeat case_bool_decide;
    rewrite ?(write_signature_flat_app (_ ++ _)), ?(write_signature_flat_app (write_card_flat _ _ _)),
      ?(write_signature_flat_app (write_full_package_to_zip _ _ _)),
      ?(write_card_flat_app (write_full_package_to_zip _ _ _)),
      ?(write_full_package_app zipf), ?(write_card_flat_app zipf),
      ?(write_signature_flat_app zipf);
    rewrite ?app_nil_l, ?app_nil_r, <- ?(assoc_L (++)); try reflexivity.
Qed.

Lemma foldl_write_selected {A} opts (person : A → gmap string pyval)
    (root : A → string) (l : list A) zipf :
  foldl (λ z x, write_selected opts z (person x) (root x)) zipf l
  = zipf ++ concat ((λ x, write_selected opts [] (person x) (root x)) <$> l).
Proof.
  revert zipf. induction l as [|x l IH]; intros zipf.
  - cbn. by rewrite app_nil_r.
  - cbn [foldl fmap list_fmap concat]. rewrite IH, write_selected_app.
    by rewrite <- (assoc_L (++)).
Qed.

Lemma person_first_name r :
  get_fmt (person_of_row r) "First_Name" = First_Name (raw r).
Proof. unfold get_fmt, person_of_row. by simplify_map_eq. Qed.

Lemma person_last_name r :
  get_fmt (person_of_row r) "Last_Name" = Last_Name (raw r).
Proof. unfold get_fmt, person_of_row. by simplify_map_eq. Qed.

(** [app.py] classifies every non-empty batch: two selections of the
    table, and the rows in neither of them. *)
Lemma classify_app_ok rows :
  rows ≠ [] →
  ∃ dup inv,
    let table := frame_of (normalize_row <$> rows) in
    let clean :=
      select (mask_and (mask_not (Index_isin (index table) (index (select dup table))))
                       (mask_not (Index_isin (index table) (index (select inv table)))))
        table in
    HandlerApp.classify rows
    = Ok {| HandlerApp.mapped := table;
            HandlerApp.duplicates := select dup table;
            HandlerApp.invalids := select inv table;
            HandlerApp.clean_df := clean;
            HandlerApp.total := Z.of_nat (length table);
            HandlerApp.clean_count := Z.of_nat (length clean);
            HandlerApp.invalid_count := Z.of_nat (length (select inv table));
            HandlerApp.duplicate_count := Z.of_nat (length (select dup table)) |}.
Proof.
  destruct rows as [|r rows]; [congruence|]. intros _.
  unfold HandlerApp.classify. rewrite !fmap_cons.
  cbn [HandlerApp.unzip_columns bind]. rewrite !Series_duplicated_keep_false.
  cbn [bind]. rewrite <- !fmap_cons. eexists _, _. reflexivity.
Qed.

(** What [app.py] leaves in [clean_df]: the rows of the table whose label
    is in neither selection. *)
Lemma classify_app_clean rows c :
  HandlerApp.classify rows = Ok c →
  HandlerApp.mapped c = frame_of (normalize_row <$> rows)
  ∧ HandlerApp.clean_count c = Z.of_nat (length (HandlerApp.clean_df c))
  ∧ HandlerApp.clean_df c
    = base.filter
        (λ ir, ir.1 ∉ Index_union (index (HandlerApp.invalids c))
                                   (index (HandlerApp.duplicates c)))
        (HandlerApp.mapped c).
Proof.
  intros Hc. destruct (decide (rows = [])) as [->|Hne]; [discriminate|].
  destruct (classify_app_ok rows Hne) as (dup & inv & E). cbn zeta in E.
  rewrite E in Hc. injection Hc as <-.
  cbn [HandlerApp.clean_count HandlerApp.invalids HandlerApp.duplicates
       HandlerApp.mapped HandlerApp.clean_df].
  split; [done|]. split; [done|].
  apply filter_ext_elem. intros ir Hir. by apply isin_mask_lookup.
Qed.

(** In a frame with distinct labels a row is known by its label. *)
Lemma row_of_label {A} (frame : list (nat * A)) x y :
  NoDup (index frame) → x ∈ frame → y ∈ frame → x.1 = y.1 → x = y.
Proof.
  unfold index. induction frame as [|z frame IH]; intros Hnd Hx Hy E.
  - by apply elem_of_nil in Hx.
  - rewrite fmap_cons in Hnd. apply NoDup_cons in Hnd as [Hz Hnd].
    apply elem_of_cons in Hx as [->|Hx]; apply elem_of_cons in Hy as [->|Hy].
    + done.
    + exfalso. apply Hz. rewrite E. apply list_elem_of_fmap. by exists y.
    + exfalso. apply Hz. rewrite <- E. apply list_elem_of_fmap. by exists x.
    + by apply IH.
Qed.

(** A row of the table is in a selection exactly when its label is. *)
Lemma selection_label {A} mask (frame : list (nat * A)) ir :
  NoDup (index frame) → ir ∈ frame →
  ir.1 ∈ index (select mask frame) ↔ ir ∈ select mask frame.
Proof.
  intros Hnd Hir. split.
  - intros (jr & E & Hjr)%list_elem_of_fmap.
    assert (jr ∈ frame) as Hj.
    { unfold select in Hjr. by apply list_elem_of_filter in Hjr as [_ ?]. }
    by rewrite (row_of_label frame ir jr Hnd Hir Hj E).
  - intros H. apply list_elem_of_fmap. by exists ir.
Qed.

Lemma union_in_frame {A} m1 m2 (frame : list (nat * A)) :
  Index_union (index (select m1 frame)) (index (select m2 frame))
  ⊆ list_to_set (index frame).
Proof.
  pose proof (index_select_subseteq (A:=A)) as Hs.
  unfold Index_union. intros i.
  rewrite elem_of_union, !elem_of_list_to_set. intros [H|H]; by eapply Hs.
Qed.

Lemma length_frame_of {A} (l : list A) : length (frame_of l) = length l.
Proof. unfold frame_of. apply length_imap. Qed.

(** C5.  The counts of a classified batch satisfy
    [clean + |invalid ∪ duplicate| = total], where [total] is the number
    of rows of the batch, the invalid and the duplicate rows are rows of
    the table, and [clean] is the number of rows of the table that are in
    neither selection: in [app.py], where every non-empty batch is
    classified and the clean rows are those of [clean_df], and in the
    [a.py] classification from line 614 on, whatever the value of
    [dup_email], where [clean] is computed by the subtraction. *)
Theorem clean_count_covers (rows : list Row) (table : list NRow)
    (dup_email : list bool) :
  (rows <> [] ->
   exists c, HandlerApp.classify rows = Ok c
     /\ HandlerApp.mapped c = frame_of (normalize_row <$> rows)
     /\ HandlerApp.total c = Z.of_nat (length rows)
     /\ (HandlerApp.invalids c `sublist_of` HandlerApp.mapped c)
     /\ (HandlerApp.duplicates c `sublist_of` HandlerApp.mapped c)
     /\ (HandlerApp.clean_df c `sublist_of` HandlerApp.mapped c)
     /\ HandlerApp.clean_count c = Z.of_nat (length (HandlerApp.clean_df c))
     /\ (forall ir, ir ∈ HandlerApp.mapped c ->
           (ir ∈ HandlerApp.clean_df c
            <-> (ir ∉ HandlerApp.invalids c) /\ (ir ∉ HandlerApp.duplicates c)))
     /\ (HandlerApp.clean_count c
         + Z.of_nat (size (Index_union (index (HandlerApp.invalids c))
                                       (index (HandlerApp.duplicates c))))
         = HandlerApp.total c)%Z)
  /\ (exists c,
        HandlerA.classify_from dup_email (frame_of table) = Ok c
        /\ HandlerA.mapped c = frame_of table
        /\ HandlerA.total c = Z.of_nat (length table)
        /\ (HandlerA.invalids c `sublist_of` HandlerA.mapped c)
        /\ (HandlerA.duplicates c `sublist_of` HandlerA.mapped c)
        /\ (forall ir, ir ∈ HandlerA.mapped c ->
              (ir.1 ∉ Index_union (index (HandlerA.invalids c))
                                  (index (HandlerA.duplicates c))
               <-> (ir ∉ HandlerA.invalids c) /\ (ir ∉ HandlerA.duplicates c)))
        /\ HandlerA.clean_count c
           = Z.of_nat
               (length
                  (base.filter
                     (λ ir, ir.1 ∉ Index_union (index (HandlerA.invalids c))
                                               (index (HandlerA.duplicates c)))
                     (HandlerA.mapped c)))
        /\ (HandlerA.clean_count c
            + Z.of_nat (size (Index_union (index (HandlerA.invalids c))
                                          (index (HandlerA.duplicates c))))
            = HandlerA.total c)%Z
        /\ (0 <= HandlerA.clean_count c <= HandlerA.total c)%Z).
Proof.
  split.
  - clear table. intros Hne.
    destruct (classify_app_ok rows Hne) as (dup & inv & E).
    cbn zeta in E. eexists. split; [exact E|].
    cbn [HandlerApp.clean_count HandlerApp.invalids HandlerApp.duplicates
         HandlerApp.total HandlerApp.mapped HandlerApp.clean_df].
    set (table := normalize_row <$> rows).
    pose proof (frame_of_NoDup table) as Hnd.
    assert (Hlen : length (frame_of table) = length rows)
      by (rewrite length_frame_of; apply length_fmap).
    split; [done|]. split; [by rewrite Hlen|].
    split; [apply select_sublist|]. split; [apply select_sublist|].
    split; [apply select_sublist|]. split; [done|].
    assert (Hmem : ∀ ir, ir ∈ frame_of table →
              ir ∈ select
                     (mask_and
                        (mask_not (Index_isin (index (frame_of table))
                                     (index (select dup (frame_of table)))))
                        (mask_not (Index_isin (index (frame_of table))
                                     (index (select inv (frame_of table))))))
                     (frame_of table)
              ↔ ir.1 ∉ Index_union (index (select inv (frame_of table)))
                                    (index (select dup (frame_of table)))).
    { intros ir Hir. unfold select at 1. rewrite list_elem_of_filter.
      rewrite (isin_mask_lookup table _ _ ir Hir). tauto. }
    split.
    + intros ir Hir. rewrite (Hmem ir Hir). unfold Index_union.
      rewrite not_elem_of_union, !elem_of_list_to_set.
      by rewrite !(selection_label _ _ ir Hnd Hir).
    + unfold select at 1.
      rewrite (filter_ext_elem _
                 (λ ir, ir.1 ∉ Index_union (index (select inv (frame_of table)))
                                            (index (select dup (frame_of table)))))
        by (intros ir Hir; by apply isin_mask_lookup).
      rewrite <- Nat2Z.inj_add. f_equal.
      apply outside_count; [done | apply union_in_frame].
  - unfold HandlerA.classify_from. rewrite Series_duplicated_keep_false.
    cbn [bind]. eexists. split; [reflexivity|].
    cbn [HandlerA.clean_count HandlerA.invalids HandlerA.duplicates
         HandlerA.total HandlerA.mapped].
    set (dup := select (mask_or (mask_and _ _) _) (frame_of table)).
    set (inv := select (mask_or (mask_not _) _) (frame_of table)).
    pose proof (frame_of_NoDup table) as Hnd.
    pose proof (outside_count (frame_of table)
                  (Index_union (index inv) (index dup)) Hnd
                  (union_in_frame _ _ _)) as E.
    rewrite length_frame_of in E |- *.
    split; [done|]. split; [done|].
    split; [apply select_sublist|]. split; [apply select_sublist|].
    split.
    { intros ir Hir. unfold Index_union.
      rewrite not_elem_of_union, !elem_of_list_to_set.
      unfold inv, dup. by rewrite !(selection_label _ _ ir Hnd Hir). }
    split; [lia|]. split; lia.
Qed.

Lemma clean_count_covers_witness :
  exists c, HandlerApp.classify [row_A; row_B; row_C; row_D] = Ok c
    /\ HandlerApp.total c = 4%Z
    /\ index (HandlerApp.invalids c) = [2]
    /\ index (HandlerApp.duplicates c) = [0; 1]
    /\ index (HandlerApp.clean_df c) = [3]
    /\ HandlerApp.clean_count c = 1%Z
    /\ (HandlerApp.clean_count c
        + Z.of_nat (size (Index_union (index (HandlerApp.invalids c))
                                      (index (HandlerApp.duplicates c))))
        = HandlerApp.total c)%Z.
Proof.
  destruct (proj1 (clean_count_covers [row_A; row_B; row_C; row_D] [] []))
    as (c & Hc & _ & Ht & _ & _ & _ & Hn & _ & Heq); [discriminate|].
  exists c. split; [exact Hc|]. split; [exact Ht|].
  assert (Ok c = HandlerApp.classify [row_A; row_B; row_C; row_D]) as E
    by (symmetry; exact Hc).
  vm_compute in E. injection E as ->.
  split; [reflexivity|]. split; [reflexivity|]. split; [reflexivity|].
  split; [reflexivity|]. reflexivity.
Defined.

(** C6, as amended.  In the clean-only loop of [app.py] the archive holds
    the batch summary followed by the artifacts of the rows of the clean
    partition and of no other row, and a clean row is neither invalid nor
    duplicate.  For the batch of row A (valid), row B (the email of A
    again) and row C (bad mobile) the summary counts are total 3, clean 0,
    invalid 1, duplicate 2: rows A and B are both duplicates, nothing is
    clean, and no archive is produced.  The loop of [a.py] has no
    clean-only mode: after its reports it writes the artifacts of every
    row of the table. *)
Theorem clean_only_archive (rows : list Row) (download_options : list string)
    (custom_zip_prefix now : string) (c : HandlerApp.Classification)
    (zipf : zipfile) :
  HandlerApp.classify rows = Ok c ->
  HandlerApp.generate_zip c download_options custom_zip_prefix now = Some zipf ->
  let safe_root := Sanitizer.safe_root_app custom_zip_prefix in
  zipf
  = (safe_root +:+ "/Batch_Summary.txt",
     summary_text
       [SumTitle; SumRule; SumTotal (HandlerApp.total c);
        SumClean (HandlerApp.clean_count c);
        SumInvalid (HandlerApp.invalid_count c);
        SumDuplicates (HandlerApp.duplicate_count c); SumBlank;
        SumGeneratedOn now; SumBlank])
    :: concat
         ((λ ir, write_selected download_options [] (person_of_row ir.2)
                   (safe_root +:+ "/" +:+ First_Name (raw ir.2) +:+ "_"
                    +:+ Last_Name (raw ir.2)))
          <$> HandlerApp.clean_df c)
  /\ (forall ir, ir ∈ HandlerApp.clean_df c ->
        (ir ∈ HandlerApp.mapped c)
        /\ (ir.1 ∉ index (HandlerApp.invalids c))
        /\ (ir.1 ∉ index (HandlerApp.duplicates c)))
  /\ (exists c3, HandlerApp.classify three_rows = Ok c3
        /\ HandlerApp.total c3 = 3%Z /\ HandlerApp.clean_count c3 = 0%Z
        /\ HandlerApp.invalid_count c3 = 1%Z
        /\ HandlerApp.duplicate_count c3 = 2%Z
        /\ index (HandlerApp.duplicates c3) = [0; 1]
        /\ HandlerApp.generate_zip c3 download_options custom_zip_prefix now
           = None)
  /\ (forall (ca : HandlerA.Classification) (batch_root_name default_name : string),
        exists reports,
          HandlerA.generate_zip ca download_options batch_root_name default_name now
          = reports
            ++ concat
                 ((λ ir, write_selected download_options []
                           (person_of_row ir.2)
                           (Sanitizer.safe_root batch_root_name default_name))
                  <$> HandlerA.mapped ca)).
Proof.
  intros Hc Hz safe_root.
  destruct (classify_app_clean rows c Hc) as (Hm & Hn & Hclean).
  split; [|split; [|split]].
  - unfold HandlerApp.generate_zip in Hz.
    destruct (HandlerApp.clean_count c =? 0)%Z; [discriminate|].
    injection Hz as <-. rewrite foldl_write_selected.
    unfold writestr. rewrite app_nil_l. cbn [app].
    rewrite (list_fmap_ext _
      (λ ir, write_selected download_options [] (person_of_row ir.2)
               (safe_root +:+ "/" +:+ First_Name (raw ir.2) +:+ "_"
                +:+ Last_Name (raw ir.2))) (HandlerApp.clean_df c)); [done|].
    intros _ ir _. by rewrite person_first_name, person_last_name.
  - intros ir. rewrite Hclean, list_elem_of_filter. unfold Index_union.
    rewrite not_elem_of_union, !elem_of_list_to_set. tauto.
  - eexists. split; [reflexivity|]. repeat split.
  - intros ca root dflt. unfold HandlerA.generate_zip. cbn zeta.
    rewrite foldl_write_selected. eexists. reflexivity.
Qed.

Lemma clean_only_archive_witness :
  exists c zipf,
    HandlerApp.classify [row_A; row_C; row_A; row_D] = Ok c
    /\ HandlerApp.generate_zip c ["Business Cards Only"] "Q1 Hires" "now"
       = Some zipf
    /\ index (HandlerApp.clean_df c) = [3]
    /\ zipf.*1 = ["Q1_Hires/Batch_Summary.txt";
                  "Q1_Hires/D_Test/BusinessCards_Flat/D_Test.pdf"].
Proof.
  eexists. eexists. split; [reflexivity|]. split; [reflexivity|].
  split; [reflexivity|].
  rewrite (proj1 (clean_only_archive [row_A; row_C; row_A; row_D]
                    ["Business Cards Only"] "Q1 Hires" "now" _ _
                    eq_refl eq_refl)).
  reflexivity.
Defined.

(** C6 as stated fails: on the three-row batch the clean count of the
    summary is 0, not 1, and row A is classified as a duplicate with row B,
    so that nothing is generated for it, whatever the options. *)
Lemma three_rows_counterexample :
  exists c, HandlerApp.classify three_rows = Ok c
    /\ HandlerApp.total c = 3%Z
    /\ HandlerApp.invalid_count c = 1%Z
    /\ HandlerApp.duplicate_count c = 2%Z
    /\ HandlerApp.clean_count c = 0%Z
    /\ HandlerApp.clean_count c <> 1%Z
    /\ 0 ∈ index (HandlerApp.duplicates c)
    /\ (forall opts prefix now, HandlerApp.generate_zip c opts prefix now = None).
Proof.
  eexists. split; [reflexivity|]. repeat split; try discriminate.
  apply list_elem_of_here.
Qed.

End BatchFacts.

(** ** More on the field normaliser *)

Module NormalizerMore.
Import PyStr Normalizer PyStrFacts StripFacts NormalizerFacts.

(** From twelve digits [966...] the canonical number is rebuilt. *)
Lemma normalize_of_digits raw d :
  truthy raw = true -> re_sub_nondigits raw = "966" +:+ d -> len d = 9%Z ->
  normalize_saudi_mobile raw = ("+966" +:+ d, true).
Proof.
  intros T E L. unfold normalize_saudi_mobile. rewrite T, E.
  cbn [negb]. cbn zeta. str_simpl.
  eval_len_tests L. rewrite andb_false_r. lazy iota.
  eval_len_tests L. startswith_simpl.
  destruct (startswith "5" d && true); reflexivity.
Qed.

Ltac digits_of_literal Hd :=
  unfold normalize_saudi_mobile, re_sub_nondigits;
  rewrite filter_chars_app, (filter_chars_all _ _ Hd);
  match goal with
  | |- context [filter_chars is_digit ?l +:+ _] =>
      let v := eval vm_compute in (filter_chars is_digit l) in
      change (filter_chars is_digit l) with v
  end;
  str_simpl; cbn [truthy negb slice_from]; cbn zeta.

Ltac run_tests L :=
  repeat (progress (eval_len_tests L; rewrite ?andb_false_r, ?andb_true_r;
                    lazy iota; startswith_simpl; cbn [slice_from])).

(** X1.  The five spellings of one mobile number, [05...], [5...],
    [9665...], [009665...] and [+9665...], all normalise to the same
    canonical string. *)
Theorem normalize_saudi_mobile_spellings (d : string) :
  len d = 8%Z -> all_chars is_digit d = true ->
  normalize_saudi_mobile ("05" +:+ d) = ("+9665" +:+ d, true)
  /\ normalize_saudi_mobile ("5" +:+ d) = ("+9665" +:+ d, true)
  /\ normalize_saudi_mobile ("9665" +:+ d) = ("+9665" +:+ d, true)
  /\ normalize_saudi_mobile ("009665" +:+ d) = ("+9665" +:+ d, true)
  /\ normalize_saudi_mobile ("+9665" +:+ d) = ("+9665" +:+ d, true).
Proof.
  intros L Hd.
  repeat split; digits_of_literal Hd; run_tests L; reflexivity.
Qed.

Lemma normalize_saudi_mobile_spellings_witness :
  normalize_saudi_mobile "0512345678" = ("+966512345678", true)
  /\ normalize_saudi_mobile "00966512345678" = ("+966512345678", true).
Proof.
  destruct (normalize_saudi_mobile_spellings "12345678" eq_refl eq_refl)
    as (H1 & _ & _ & H4 & _).
  split; [exact H1 | exact H4].
Defined.

(** X2.  Only the digits of the input decide the outcome: two inputs
    with the same digits are both valid or both invalid, and when valid
    they normalise to the same string. *)
Theorem normalize_saudi_mobile_formatting (x y : string) :
  re_sub_nondigits x = re_sub_nondigits y ->
  snd (normalize_saudi_mobile x) = snd (normalize_saudi_mobile y)
  /\ (snd (normalize_saudi_mobile x) = true ->
      fst (normalize_saudi_mobile x) = fst (normalize_saudi_mobile y)).
Proof.
  assert (Hempty : forall z, re_sub_nondigits z = "" ->
            snd (normalize_saudi_mobile z) = false).
  { intros z Hz. unfold normalize_saudi_mobile. rewrite Hz.
    destruct z; reflexivity. }
  intros H. destruct x as [|a x].
  - symmetry in H. rewrite (Hempty y H). split; [reflexivity|discriminate].
  - destruct y as [|b y].
    + rewrite (Hempty _ H). split; [reflexivity|discriminate].
    + unfold normalize_saudi_mobile. cbn [truthy negb]. rewrite H.
      generalize (re_sub_nondigits (String b y)). intros c. cbn zeta.
      destruct (startswith "00966" c && (len c =? 14)%Z);
        repeat match goal with
          | |- context [if ?t then _ else _] => destruct t
          end;
        (split; [reflexivity | first [reflexivity | discriminate]]).
Qed.

Lemma normalize_saudi_mobile_formatting_witness :
  fst (normalize_saudi_mobile "+966 (51) 234-5678")
  = fst (normalize_saudi_mobile "966512345678").
Proof.
  apply (normalize_saudi_mobile_formatting "+966 (51) 234-5678" "966512345678");
    reflexivity.
Defined.

Lemma lower_char_idem c : lower_char (lower_char c) = lower_char c.
Proof. destruct c as [[] [] [] [] [] [] [] []]; reflexivity. Qed.

Lemma lower_char_space c : is_space (lower_char c) = is_space c.
Proof. destruct c as [[] [] [] [] [] [] [] []]; reflexivity. Qed.

Lemma lower_idem s : lower (lower s) = lower s.
Proof.
  unfold lower. induction s as [|a s IH]; [reflexivity|].
  cbn [map_chars]. now rewrite lower_char_idem, IH.
Qed.

Lemma lstrip_lower s :
  lstrip_by is_space (lower s) = lower (lstrip_by is_space s).
Proof.
  unfold lower. induction s as [|a s IH]; [reflexivity|].
  cbn [map_chars lstrip_by]. rewrite lower_char_space.
  destruct (is_space a); [exact IH | reflexivity].
Qed.

Lemma rstrip_lower s :
  rstrip_by is_space (lower s) = lower (rstrip_by is_space s).
Proof.
  unfold lower. induction s as [|a s IH]; [reflexivity|].
  cbn [map_chars rstrip_by]. rewrite IH, lower_char_space.
  destruct (rstrip_by is_space s); cbn [map_chars];
    [destruct (is_space a)|]; reflexivity.
Qed.

Lemma strip_lower s : strip (lower s) = lower (strip s).
Proof. unfold strip, strip_by. now rewrite lstrip_lower, rstrip_lower. Qed.

Lemma rstrip_by_idem f s : rstrip_by f (rstrip_by f s) = rstrip_by f s.
Proof.
  induction s as [|a s IH]; [reflexivity|].
  cbn [rstrip_by]. destruct (rstrip_by f s) as [|b t] eqn:R.
  - destruct (f a) eqn:Fa; [reflexivity|]. cbn [rstrip_by]. now rewrite Fa.
  - change (rstrip_by f (String a (String b t)))
      with (match rstrip_by f (String b t) with
            | EmptyString => if f a then EmptyString else String a EmptyString
            | r' => String a r'
            end).
    now rewrite IH.
Qed.

Lemma lstrip_by_fixed f s :
  match s with EmptyString => True | String c _ => f c = false end ->
  lstrip_by f s = s.
Proof. destruct s as [|c r]; [reflexivity|]. cbn [lstrip_by]. now intros ->. Qed.

Lemma strip_by_idem f s : strip_by f (strip_by f s) = strip_by f s.
Proof.
  unfold strip_by.
  rewrite (lstrip_by_fixed f (rstrip_by f (lstrip_by f s))).
  - apply rstrip_by_idem.
  - pose proof (lstrip_by_head f s) as H.
    destruct (lstrip_by f s) as [|a t]; [exact I|].
    destruct (rstrip_by_head f a t H) as [t' ->]. exact H.
Qed.

(** X3.  [normalize_email] is idempotent: normalising an already
    normalised address changes neither the address nor its validity. *)
Theorem normalize_email_idempotent (email : string) :
  normalize_email (fst (normalize_email email)) = normalize_email email.
Proof.
  destruct email as [|a s]; [reflexivity|].
  unfold normalize_email at 2 3. cbn [truthy negb fst]. cbn zeta.
  set (e := lower (strip (String a s))).
  assert (He : lower (strip e) = e).
  { unfold e. rewrite strip_lower, lower_idem. unfold strip.
    now rewrite strip_by_idem. }
  unfold normalize_email. destruct e as [|b t] eqn:E; [reflexivity|].
  cbn [truthy negb]. cbn zeta. now rewrite He.
Qed.

End NormalizerMore.

(** ** Paths inside the archive *)

Module ArchiveFacts.
Import PyStr PyStrFacts StripFacts Sanitizer SanitizerFacts VCard Batch.
Import PandasFacts BatchFacts Reports.

Lemma or_else_empty s : or_else s "" = s.
Proof. now destruct s. Qed.

Lemma all_chars_impl (P Q : ascii -> bool) s :
  (forall c, P c = true -> Q c = true) ->
  all_chars P s = true -> all_chars Q s = true.
Proof.
  intros HPQ. induction s as [|a s IH]; [reflexivity|].
  cbn [all_chars]. intros [Ha Hs]%andb_true_iff.
  now rewrite (HPQ a Ha), IH.
Qed.

Lemma lstrip_by_none f s :
  all_chars (fun c => negb (f c)) s = true -> lstrip_by f s = s.
Proof.
  destruct s as [|a s]; [reflexivity|]. cbn [all_chars lstrip_by].
  intros [Ha _]%andb_true_iff. apply negb_true_iff in Ha. now rewrite Ha.
Qed.

Lemma rstrip_by_none f s :
  all_chars (fun c => negb (f c)) s = true -> rstrip_by f s = s.
Proof.
  induction s as [|a s IH]; [reflexivity|]. cbn [all_chars rstrip_by].
  intros [Ha Hs]%andb_true_iff. apply negb_true_iff in Ha.
  rewrite (IH Hs), Ha. now destruct s.
Qed.

(** Stripping leaves a string alone when it holds none of the characters. *)
Lemma strip_by_none f s :
  all_chars (fun c => negb (f c)) s = true -> strip_by f s = s.
Proof.
  intros H. unfold strip_by. now rewrite (lstrip_by_none f s H), rstrip_by_none.
Qed.

Lemma strip_by_all_chars P f s :
  all_chars P s = true -> all_chars P (strip_by f s) = true.
Proof.
  destruct (strip_by_split f s) as (l & r & E & _ & _).
  rewrite E at 1. rewrite !all_chars_app.
  now intros [_ [H _]%andb_true_iff]%andb_true_iff.
Qed.

Lemma is_safe_not_space c : is_safe c = true -> negb (is_space c) = true.
Proof. destruct c as [[] [] [] [] [] [] [] []]; now intros H. Qed.

Lemma is_safe_not_slash c :
  is_safe c = true -> negb (contains c "/\") = true.
Proof. destruct c as [[] [] [] [] [] [] [] []]; now intros H. Qed.

Lemma is_safe_no_space c : is_safe c = true -> no_space c = true.
Proof. destruct c as [[] [] [] [] [] [] [] []]; now intros H. Qed.

Lemma replace_no_space s : all_chars no_space (replace_char " " "_" s) = true.
Proof.
  unfold replace_char. induction s as [|a s IH]; [reflexivity|].
  cbn [map_chars all_chars]. rewrite IH, andb_true_r.
  unfold no_space. destruct (Ascii.eqb_spec a " ") as [->|Hn]; [reflexivity|].
  apply negb_true_iff. now apply Ascii.eqb_neq.
Qed.

(** A root made of safe characters is used as it is. *)
Lemma join_root_safe root path :
  truthy root = true -> all_chars is_safe root = true ->
  _join_root root path = root +:+ "/" +:+ path.
Proof.
  intros T S. unfold _join_root, strip, strip_chars. rewrite or_else_empty.
  rewrite (strip_by_none is_space root)
    by (eapply all_chars_impl; [apply is_safe_not_space | exact S]).
  rewrite (strip_by_none _ root)
    by (eapply all_chars_impl; [apply is_safe_not_slash | exact S]).
  now rewrite T.
Qed.

(** The sanitised root of [a.py] is non-empty and safe when the default
    name is. *)
Lemma safe_root_safe name default :
  truthy default = true -> all_chars is_safe default = true ->
  truthy (safe_root name default) = true
  /\ all_chars is_safe (safe_root name default) = true.
Proof.
  intros T S. unfold safe_root.
  set (t := strip_chars "_" _). unfold or_else.
  destruct (truthy t) eqn:Tt; [|now split].
  split; [exact Tt|]. apply strip_by_all_chars, runs_all_safe.
Qed.

(** Every entry written for one person sits at a space-free path
    relative to the root that was passed. *)
Lemma write_selected_paths opts p root e :
  e ∈ write_selected opts [] p root ->
  exists rel, e.1 = _join_root root rel /\ all_chars no_space rel = true.
Proof.
  unfold write_selected, write_full_package_to_zip, write_card_flat,
    write_signature_flat, writestr. cbn zeta. intros Hin.
  repeat case_bool_decide; cbn [app] in Hin;
    repeat (apply elem_of_cons in Hin as [->|Hin]);
    try (now apply elem_of_nil in Hin);
    cbn [fst]; eexists; (split; [reflexivity|]);
    rewrite ?all_chars_app, ?replace_no_space; reflexivity.
Qed.

Lemma elem_of_concat {A} (x : A) (ls : list (list A)) :
  x ∈ concat ls <-> exists l, l ∈ ls /\ x ∈ l.
Proof.
  induction ls as [|l ls IH]; cbn [concat].
  - split; [intros H; now apply elem_of_nil in H|].
    intros (l & H & _). now apply elem_of_nil in H.
  - rewrite elem_of_app, IH. split.
    + intros [H|(l' & H1 & H2)]; [exists l | exists l'];
        (split; [|assumption]); [left | now right].
    + intros (l' & [->|H1]%elem_of_cons & H2); [now left | right; eauto].
Qed.

Lemma length_concat_const {A} (ls : list (list A)) n :
  (forall l, l ∈ ls -> length l = n) -> length (concat ls) = length ls * n.
Proof.
  induction ls as [|l ls IH]; intros H; [reflexivity|]. cbn [concat length].
  rewrite length_app, (H l) by left.
  rewrite IH by (intros l' Hl'; apply H; now right). lia.
Qed.

(** X4.  In the archive of [a.py] every entry lies under the sanitised
    root folder and no entry path holds a space, whatever the names in
    the rows, when the default batch name is itself made of safe
    characters (as the dated default is). *)
Theorem archive_under_root (ca : HandlerA.Classification)
    (download_options : list string) (batch_root_name default_name now : string)
    (e : string * payload) :
  truthy default_name = true -> all_chars is_safe default_name = true ->
  e ∈ HandlerA.generate_zip ca download_options batch_root_name default_name now ->
  (exists rel, e.1 = safe_root batch_root_name default_name +:+ "/" +:+ rel)
  /\ all_chars no_space e.1 = true.
Proof.
  intros T S He.
  destruct (safe_root_safe batch_root_name default_name T S) as [Tr Sr].
  set (root := safe_root batch_root_name default_name) in *.
  assert (Hrel : exists rel, e.1 = _join_root root rel
                             /\ all_chars no_space rel = true).
  { unfold HandlerA.generate_zip in He. cbn zeta in He. fold root in He.
    rewrite foldl_write_selected in He.
    apply elem_of_app in He as [He|He].
    - unfold writestr in He.
      destruct (HandlerA.invalid_count ca =? 0)%Z,
               (HandlerA.duplicate_count ca =? 0)%Z;
        cbn [app] in He;
        repeat (apply elem_of_cons in He as [->|He]);
        try (now apply elem_of_nil in He);
        eexists; (split; [reflexivity | reflexivity]).
    - apply elem_of_concat in He as (l & Hl & He).
      apply list_elem_of_fmap in Hl as (ir & -> & _).
      now apply write_selected_paths in He. }
  destruct Hrel as (rel & E & Hrel).
  rewrite (join_root_safe root rel Tr Sr) in E.
  split; [now exists rel|].
  rewrite E, !all_chars_app, Hrel.
  rewrite (all_chars_impl is_safe no_space root is_safe_no_space Sr).
  reflexivity.
Qed.

Lemma archive_under_root_witness :
  exists e,
    e ∈ HandlerA.generate_zip SpacedNames.spaced_batch
          ["Full Package (All Files)"; "Business Cards Only"]
          "Q1 Hires/2024" "Batch_Outputs_20240101" "now"
    /\ e.1 = "Q1_Hires_2024/Mary_ann_Al_saud_Senior_Analyst_Alraedah_Finance/QR/Mary_ann_Al_saud.vcf"
    /\ (exists rel,
          e.1 = safe_root "Q1 Hires/2024" "Batch_Outputs_20240101" +:+ "/" +:+ rel)
    /\ all_chars no_space e.1 = true.
Proof.
  assert (Hin : forall e,
            HandlerA.generate_zip SpacedNames.spaced_batch
              ["Full Package (All Files)"; "Business Cards Only"]
              "Q1 Hires/2024" "Batch_Outputs_20240101" "now" !! 6 = Some e ->
            e ∈ HandlerA.generate_zip SpacedNames.spaced_batch
                  ["Full Package (All Files)"; "Business Cards Only"]
                  "Q1 Hires/2024" "Batch_Outputs_20240101" "now")
    by (intros e; apply list_elem_of_lookup_2).
  eexists. split; [apply Hin; reflexivity|]. split; [reflexivity|].
  eapply (archive_under_root SpacedNames.spaced_batch
            ["Full Package (All Files)"; "Business Cards Only"]
            "Q1 Hires/2024" "Batch_Outputs_20240101" "now");
    [reflexivity | reflexivity | apply Hin; reflexivity].
Defined.

Lemma write_selected_length opts zipf p root :
  length (write_selected opts zipf p root)
  = length zipf + files_per_person opts.
Proof.
  rewrite write_selected_app, length_app. f_equal.
  unfold write_selected, files_per_person. cbn zeta.
  repeat case_bool_decide; reflexivity.
Qed.

(** X5.  Size of the archives: [app.py] writes the summary and, for each
    clean row, six files for the full package, one for the cards and two
    for the signatures, as selected; [a.py] writes the summary, a report
    for each non-empty partition and the same files for every row. *)
Theorem archive_sizes (download_options : list string) (now : string) :
  (forall c custom_zip_prefix zipf,
     HandlerApp.generate_zip c download_options custom_zip_prefix now = Some zipf ->
     length zipf
     = 1 + length (HandlerApp.clean_df c) * files_per_person download_options)
  /\ (forall ca batch_root_name default_name,
        length (HandlerA.generate_zip ca download_options batch_root_name
                  default_name now)
        = 1 + (if (HandlerA.invalid_count ca =? 0)%Z then 0 else 1)
          + (if (HandlerA.duplicate_count ca =? 0)%Z then 0 else 1)
          + length (HandlerA.mapped ca) * files_per_person download_options).
Proof.
  split.
  - intros c prefix zipf Hz. unfold HandlerApp.generate_zip in Hz.
    destruct (HandlerApp.clean_count c =? 0)%Z; [discriminate|].
    injection Hz as <-. rewrite foldl_write_selected, length_app.
    rewrite (length_concat_const _ (files_per_person download_options)).
    + now rewrite length_fmap.
    + intros l (ir & -> & _)%list_elem_of_fmap.
      now rewrite write_selected_length.
  - intros ca root dflt. unfold HandlerA.generate_zip. cbn zeta.
    rewrite foldl_write_selected, length_app.
    rewrite (length_concat_const _ (files_per_person download_options)).
    + rewrite length_fmap. unfold writestr.
      destruct (HandlerA.invalid_count ca =? 0)%Z,
               (HandlerA.duplicate_count ca =? 0)%Z;
        rewrite ?length_app; cbn [length]; lia.
    + intros l (ir & -> & _)%list_elem_of_fmap.
      now rewrite write_selected_length.
Qed.

Lemma concat_collision {A B} (g : A -> list B) (l : list A) i j x y b :
  i < j -> l !! i = Some x -> l !! j = Some y -> b ∈ g x -> b ∈ g y ->
  ~ NoDup (concat (g <$> l)).
Proof.
  intros Hij Hi Hj Hx Hy Hnd.
  rewrite <- (take_drop_middle l i x Hi) in Hnd.
  rewrite fmap_app, fmap_cons, concat_app in Hnd. cbn [concat] in Hnd.
  apply NoDup_app in Hnd as (_ & _ & Hnd).
  apply NoDup_app in Hnd as (_ & Hdisj & _).
  apply (Hdisj b Hx). apply elem_of_concat. exists (g y). split; [|exact Hy].
  apply list_elem_of_fmap. exists y. split; [reflexivity|].
  apply (list_elem_of_lookup_2 _ (j - S i)).
  rewrite lookup_drop. replace (S i + (j - S i)) with j by lia. exact Hj.
Qed.

(** X6.  Paths are built from names only: when two rows of a batch carry
    the same first and last name and business cards are selected, the
    archive of [a.py] holds two entries with one and the same path. *)
Theorem same_name_paths_collide (ca : HandlerA.Classification)
    (download_options : list string) (batch_root_name default_name now : string)
    (i j : nat) (x y : nat * NRow) :
  i < j ->
  HandlerA.mapped ca !! i = Some x -> HandlerA.mapped ca !! j = Some y ->
  First_Name (raw x.2) = First_Name (raw y.2) ->
  Last_Name (raw x.2) = Last_Name (raw y.2) ->
  "Business Cards Only" ∈ download_options ->
  ~ NoDup (HandlerA.generate_zip ca download_options batch_root_name
             default_name now).*1.
Proof.
  intros Hij Hi Hj Hf Hl Hopt Hnd.
  unfold HandlerA.generate_zip in Hnd. cbn zeta in Hnd.
  rewrite foldl_write_selected, fmap_app in Hnd.
  apply NoDup_app in Hnd as (_ & _ & Hnd).
  set (root := safe_root batch_root_name default_name) in *.
  set (g := fun ir : nat * NRow =>
              (write_selected download_options [] (person_of_row ir.2) root).*1).
  assert (Hg : forall l : list (nat * NRow),
            (concat ((λ ir, write_selected download_options []
                              (person_of_row ir.2) root) <$> l)).*1
            = concat (g <$> l)).
  { induction l as [|a l IH]; [reflexivity|].
    cbn [fmap list_fmap concat]. rewrite fmap_app. f_equal. exact IH. }
  rewrite Hg in Hnd.
  assert (Hcard : forall ir : nat * NRow,
            _join_root root
              ("BusinessCards_Flat/"
               +:+ replace_char " " "_"
                     (First_Name (raw ir.2) +:+ "_" +:+ Last_Name (raw ir.2))
               +:+ ".pdf") ∈ g ir).
  { intros ir. unfold g. apply list_elem_of_fmap.
    exists (_join_root root
              ("BusinessCards_Flat/"
               +:+ replace_char " " "_"
                     (First_Name (raw ir.2) +:+ "_" +:+ Last_Name (raw ir.2))
               +:+ ".pdf"),
            business_card_pdf (person_of_row ir.2)).
    split; [reflexivity|].
    unfold write_selected. cbn zeta.
    rewrite (bool_decide_eq_true_2 _ Hopt).
    rewrite write_signature_flat_app, write_card_flat_app.
    destruct (bool_decide ("Email Signatures Only" ∈ download_options));
      rewrite ?elem_of_app; [left|]; right;
      unfold write_card_flat, writestr;
      rewrite person_first_name, person_last_name; apply list_elem_of_here. }
  eapply (concat_collision g _ i j x y); eauto.
  rewrite Hf, Hl. apply Hcard.
Qed.

Lemma same_name_paths_collide_witness :
  (HandlerA.generate_zip Namesakes.namesake_batch ["Business Cards Only"]
     "Q1" "Batch" "now").*1
  = ["Q1/Batch_Summary.txt"; "Q1/BusinessCards_Flat/Sara_Test.pdf";
     "Q1/BusinessCards_Flat/Sara_Test.pdf"]
  /\ ~ NoDup (HandlerA.generate_zip Namesakes.namesake_batch
                ["Business Cards Only"] "Q1" "Batch" "now").*1.
Proof.
  split; [reflexivity|].
  apply (same_name_paths_collide Namesakes.namesake_batch
           ["Business Cards Only"] "Q1" "Batch" "now" 0 1 _ _
           (Nat.lt_0_succ 0) eq_refl eq_refl eq_refl eq_refl).
  apply list_elem_of_here.
Defined.

Lemma lstrip_by_all f s : all_chars f s = true -> lstrip_by f s = "".
Proof.
  induction s as [|a s IH]; [reflexivity|]. cbn [all_chars lstrip_by].
  intros [-> Hs]%andb_true_iff. now apply IH.
Qed.

Lemma strip_by_all f s : all_chars f s = true -> strip_by f s = "".
Proof. intros H. unfold strip_by. now rewrite lstrip_by_all. Qed.

Lemma slash_not_space c : contains c "/\" = true -> negb (is_space c) = true.
Proof. destruct c as [[] [] [] [] [] [] [] []]; now intros H. Qed.

(** X19.  [_join_root] trims the root of blanks and then of slashes and
    backslashes at both ends and joins it to the path by one slash, so
    that the root part neither starts nor ends with a slash; a root that
    is empty, all blanks or all slashes is no root, and the path is
    returned unchanged. *)
Theorem join_root_trimmed (root path : string) :
  let r := strip_chars "/\" (strip root) in
  _join_root root path = (if truthy r then r +:+ "/" +:+ path else path)
  /\ startswith "/" r = false /\ startswith "\" r = false
  /\ endswith_char "/" r = false /\ endswith_char "\" r = false
  /\ (all_chars is_space root = true
      \/ all_chars (fun c => contains c "/\") root = true ->
      _join_root root path = path).
Proof.
  cbn zeta. unfold _join_root. rewrite or_else_empty.
  split; [reflexivity|].
  repeat (split; [first [ now apply (strip_by_head (fun c => contains c "/\"))
                        | now apply (strip_by_last (fun c => contains c "/\")) ]|]).
  intros [Hs|Hs].
  - unfold strip. now rewrite (strip_by_all _ _ Hs).
  - unfold strip, strip_chars.
    rewrite (strip_by_none is_space root)
      by (eapply all_chars_impl; [apply slash_not_space | exact Hs]).
    now rewrite (strip_by_all _ _ Hs).
Qed.

Lemma join_root_trimmed_witness :
  _join_root "//" "Batch_Summary.txt" = "Batch_Summary.txt".
Proof.
  apply (proj2 (proj2 (proj2 (proj2 (proj2
           (join_root_trimmed "//" "Batch_Summary.txt")))))).
  right. reflexivity.
Defined.

End ArchiveFacts.

(** ** The partitions of a batch, row by row *)

Module DetectorFacts.
Import PyStr Normalizer NormalizerFacts Pandas Batch PandasFacts BatchFacts.
Import Reports.

Lemma normalize_row_email r :
  Email_Normalized (normalize_row r) = fst (normalize_email (Email r))
  /\ Email_Valid (normalize_row r) = snd (normalize_email (Email r)).
Proof.
  unfold normalize_row. destruct (normalize_email (Email r)),
    (normalize_saudi_mobile (Mobile r)). now split.
Qed.

Lemma normalize_row_mobile r :
  Mobile_Normalized (normalize_row r) = fst (normalize_saudi_mobile (Mobile r))
  /\ Mobile_Valid (normalize_row r) = snd (normalize_saudi_mobile (Mobile r)).
Proof.
  unfold normalize_row. destruct (normalize_email (Email r)),
    (normalize_saudi_mobile (Mobile r)). now split.
Qed.

(** In a frame with a [RangeIndex] a label names one row. *)
Lemma index_filter_frame {A} (P : nat * A → Prop) `{!∀ x, Decision (P x)}
    (l : list A) ir :
  ir ∈ frame_of l →
  ir.1 ∈ index (filter P (frame_of l)) ↔ P ir.
Proof.
  intros Hir. unfold index. rewrite list_elem_of_fmap. split.
  - intros (jr & E & [HP Hjr]%list_elem_of_filter).
    apply elem_of_frame_of in Hir, Hjr. rewrite E, Hjr in Hir.
    injection Hir as E2. destruct ir, jr; cbn in *; by subst.
  - intros HP. exists ir. split; [done|]. by apply list_elem_of_filter.
Qed.

Lemma occurrences_self {A} (f : A → string) (l : list A) x :
  x ∈ l → 1 ≤ occurrences (f x) (f <$> l).
Proof.
  intros Hx. unfold occurrences.
  assert (f x ∈ filter (λ y, y = f x) (f <$> l)) as Hin.
  { apply list_elem_of_filter. split; [done|].
    apply list_elem_of_fmap. by exists x. }
  destruct (filter (λ y, y = f x) (f <$> l)); [by apply elem_of_nil in Hin|].
  cbn. lia.
Qed.

Lemma Ok_inj {A} (a b : A) : Ok a = Ok b → a = b.
Proof. by intros [= ]. Qed.

(** The two selections of [app.py], written as tests on a row. *)
Lemma classify_app_explicit rows :
  rows ≠ [] →
  let table := normalize_row <$> rows in
  let inv :=
    filter (λ ir : nat * NRow,
              Email_Valid ir.2 = false ∨ Mobile_Valid ir.2 = false)
      (frame_of table) in
  let dup :=
    filter (λ ir : nat * NRow,
              2 ≤ occurrences (Mobile_Normalized ir.2) (Mobile_Normalized <$> table)
              ∨ 2 ≤ occurrences (Email_Normalized ir.2) (Email_Normalized <$> table))
      (frame_of table) in
  ∃ clean,
    HandlerApp.classify rows
    = Ok {| HandlerApp.mapped := frame_of table;
            HandlerApp.duplicates := dup;
            HandlerApp.invalids := inv;
            HandlerApp.clean_df := clean;
            HandlerApp.total := Z.of_nat (length (frame_of table));
            HandlerApp.clean_count := Z.of_nat (length clean);
            HandlerApp.invalid_count := Z.of_nat (length inv);
            HandlerApp.duplicate_count := Z.of_nat (length dup) |}.
Proof.
  intros Hne table inv dup.
  assert (Hinv : select (mask_or (mask_not ((λ ir, Email_Valid ir.2) <$> frame_of table))
                                 (mask_not ((λ ir, Mobile_Valid ir.2) <$> frame_of table)))
                   (frame_of table) = inv).
  { unfold mask_or, mask_not.
    rewrite !column_frame_of, <- !list_fmap_compose, zip_with_fmap_same.
    rewrite select_by_row. apply filter_ext_elem. intros ir _.
    unfold compose. destruct (Email_Valid ir.2), (Mobile_Valid ir.2);
      cbn; naive_solver. }
  assert (Hdup : select (mask_or
                           (duplicated_mask KeepFalse
                              ((λ ir, Mobile_Normalized ir.2) <$> frame_of table))
                           (duplicated_mask KeepFalse
                              ((λ ir, Email_Normalized ir.2) <$> frame_of table)))
                   (frame_of table) = dup).
  { unfold mask_or. cbn [duplicated_mask].
    rewrite !column_frame_of, <- !list_fmap_compose, zip_with_fmap_same.
    rewrite select_by_row. apply filter_ext_elem. intros ir _.
    unfold compose. rewrite orb_true_iff, !bool_decide_eq_true. done. }
  destruct rows as [|r rows]; [congruence|].
  unfold HandlerApp.classify. rewrite !fmap_cons.
  cbn [HandlerApp.unzip_columns bind]. rewrite !Series_duplicated_keep_false.
  cbn [bind]. rewrite <- !fmap_cons. cbn zeta. fold table.
  rewrite Hinv, Hdup. eexists. reflexivity.
Qed.

Lemma classify_app_partitions rows c :
  HandlerApp.classify rows = Ok c →
  let table := normalize_row <$> rows in
  HandlerApp.mapped c = frame_of table
  ∧ HandlerApp.invalids c
    = filter (λ ir, Email_Valid ir.2 = false ∨ Mobile_Valid ir.2 = false)
        (frame_of table)
  ∧ HandlerApp.duplicates c
    = filter (λ ir, 2 ≤ occurrences (Mobile_Normalized ir.2)
                          (Mobile_Normalized <$> table)
                    ∨ 2 ≤ occurrences (Email_Normalized ir.2)
                            (Email_Normalized <$> table))
        (frame_of table)
  ∧ HandlerApp.total c = Z.of_nat (length table)
  ∧ HandlerApp.invalid_count c = Z.of_nat (length (HandlerApp.invalids c))
  ∧ HandlerApp.duplicate_count c = Z.of_nat (length (HandlerApp.duplicates c)).
Proof.
  intros Hc table.
  destruct (decide (rows = [])) as [->|Hne]; [discriminate|].
  destruct (classify_app_explicit rows Hne) as (clean & E). cbn zeta in E.
  fold table in E. rewrite E in Hc. apply Ok_inj in Hc as <-.
  cbn [HandlerApp.mapped HandlerApp.invalids HandlerApp.duplicates
       HandlerApp.total HandlerApp.invalid_count HandlerApp.duplicate_count].
  repeat split. unfold frame_of. by rewrite length_imap.
Qed.

Lemma elem_of_frame_table {A} (l : list A) ir : ir ∈ frame_of l → ir.2 ∈ l.
Proof. intros H%elem_of_frame_of. by eapply list_elem_of_lookup_2. Qed.

(** X7.  The partitions of [app.py], row by row: a row is invalid when
    its email or its mobile is not valid, duplicate when its normalised
    mobile or email occurs at least twice in its column (the empty value
    included), and clean when both fields are valid and occur once. *)
Theorem app_partitions (rows : list Row) (c : HandlerApp.Classification)
    (ir : nat * NRow) :
  HandlerApp.classify rows = Ok c ->
  let emails := Email_Normalized <$> (normalize_row <$> rows) in
  let mobiles := Mobile_Normalized <$> (normalize_row <$> rows) in
  (ir ∈ HandlerApp.invalids c <->
     ir ∈ HandlerApp.mapped c
     /\ (Email_Valid ir.2 = false \/ Mobile_Valid ir.2 = false))
  /\ (ir ∈ HandlerApp.duplicates c <->
        ir ∈ HandlerApp.mapped c
        /\ (2 ≤ occurrences (Mobile_Normalized ir.2) mobiles
            \/ 2 ≤ occurrences (Email_Normalized ir.2) emails))
  /\ (ir ∈ HandlerApp.clean_df c <->
        ir ∈ HandlerApp.mapped c
        /\ Email_Valid ir.2 = true /\ Mobile_Valid ir.2 = true
        /\ occurrences (Email_Normalized ir.2) emails = 1
        /\ occurrences (Mobile_Normalized ir.2) mobiles = 1).
Proof.
  intros Hc. cbn zeta.
  destruct (classify_app_partitions rows c Hc) as (Hm & Hi & Hd & _).
  destruct (classify_app_clean rows c Hc) as (_ & _ & Hclean).
  split; [|split].
  - rewrite Hi, Hm, list_elem_of_filter. tauto.
  - rewrite Hd, Hm, list_elem_of_filter. tauto.
  - rewrite Hclean, list_elem_of_filter, Hm. unfold Index_union.
    rewrite not_elem_of_union, !elem_of_list_to_set.
    split.
    + intros [[Hni Hnd] Hin]. split; [exact Hin|].
      rewrite Hi, index_filter_frame in Hni by exact Hin.
      rewrite Hd, index_filter_frame in Hnd by exact Hin.
      pose proof (occurrences_self Email_Normalized _ _ (elem_of_frame_table _ _ Hin)).
      pose proof (occurrences_self Mobile_Normalized _ _ (elem_of_frame_table _ _ Hin)).
      destruct (Email_Valid ir.2), (Mobile_Valid ir.2);
        repeat split; try lia; exfalso; tauto.
    + intros (Hin & He & Hmv & Hoe & Hom). split; [|exact Hin].
      rewrite Hi, Hd, !index_filter_frame by exact Hin.
      rewrite He, Hmv, Hoe, Hom.
      split; [intros [?|?]; discriminate | lia].
Qed.

Lemma app_partitions_witness :
  exists c, HandlerApp.classify Scenario.three_rows = Ok c
    /\ (0, normalize_row Scenario.row_A) ∈ HandlerApp.duplicates c.
Proof.
  eexists. split; [reflexivity|].
  apply (proj2 (proj1 (proj2
           (app_partitions Scenario.three_rows _
              (0, normalize_row Scenario.row_A) eq_refl)))).
  split; [apply list_elem_of_here|]. right. vm_compute. lia.
Defined.

Lemma email_valid_one_at email :
  snd (normalize_email email) = true ->
  count "@" (fst (normalize_email email)) = 1%Z.
Proof.
  destruct email as [|a s]; [discriminate|].
  unfold normalize_email. cbn [truthy negb fst snd]. cbn zeta.
  intros [_ H]%andb_true_iff. now apply Z.eqb_eq.
Qed.

Lemma mobile_valid_form mobile :
  snd (normalize_saudi_mobile mobile) = true ->
  is_plus966_form (fst (normalize_saudi_mobile mobile)) = true.
Proof.
  destruct (normalize_saudi_mobile_cases mobile)
    as [[E _]|(d & E & L & Hd & _)]; rewrite E; cbn [fst snd];
    [discriminate|]. intros _. now apply plus966_form_intro.
Qed.

Lemma occurrences_two_lt {A} (f : A → string) (l : list A) i j x y :
  i < j → l !! i = Some x → l !! j = Some y → f y = f x →
  2 ≤ occurrences (f x) (f <$> l).
Proof.
  intros Hij Hi Hj E. unfold occurrences.
  rewrite <- (take_drop_middle l i x Hi), fmap_app, fmap_cons.
  rewrite filter_app, filter_cons_True by done.
  rewrite length_app. cbn [length].
  assert (f x ∈ filter (λ v, v = f x) (f <$> drop (S i) l)) as Hin.
  { apply list_elem_of_filter. split; [done|].
    apply list_elem_of_fmap. exists y. split; [done|].
    apply (list_elem_of_lookup_2 _ (j - S i)).
    rewrite lookup_drop. replace (S i + (j - S i)) with j by lia. done. }
  destruct (filter (λ v, v = f x) (f <$> drop (S i) l));
    [by apply elem_of_nil in Hin|]. cbn [length]. lia.
Qed.

(** Two rows with one value make two occurrences of it. *)
Lemma occurrences_two {A} (f : A → string) (l : list A) i j x y :
  i ≠ j → l !! i = Some x → l !! j = Some y → f y = f x →
  2 ≤ occurrences (f x) (f <$> l).
Proof.
  intros Hij Hi Hj E. destruct (decide (i < j)) as [Hlt|Hge].
  - by eapply occurrences_two_lt.
  - rewrite <- E. eapply (occurrences_two_lt f l j i y x); eauto. lia.
Qed.

(** X8.  What [app.py] generates artifacts from: every row of the clean
    partition carries a mobile of the form [+966] and nine digits and an
    email with exactly one [@], and no other row of the batch has the same
    normalised mobile or email. *)
Theorem clean_rows_canonical (rows : list Row) (c : HandlerApp.Classification)
    (ir : nat * NRow) :
  HandlerApp.classify rows = Ok c ->
  ir ∈ HandlerApp.clean_df c ->
  is_plus966_form (Mobile_Normalized ir.2) = true
  /\ count "@" (Email_Normalized ir.2) = 1%Z
  /\ (forall jr, jr ∈ HandlerApp.mapped c -> jr <> ir ->
        Mobile_Normalized jr.2 <> Mobile_Normalized ir.2
        /\ Email_Normalized jr.2 <> Email_Normalized ir.2).
Proof.
  intros Hc Hir.
  destruct (classify_app_partitions rows c Hc) as (Hm & Hi & Hd & _).
  destruct (classify_app_clean rows c Hc) as (_ & _ & Hclean).
  rewrite Hclean, list_elem_of_filter, Hm in Hir. destruct Hir as [Hout Hin].
  unfold Index_union in Hout.
  rewrite not_elem_of_union, !elem_of_list_to_set in Hout.
  destruct Hout as [Hni Hnd].
  rewrite Hi, index_filter_frame in Hni by exact Hin.
  rewrite Hd, index_filter_frame in Hnd by exact Hin.
  pose proof (elem_of_frame_table _ _ Hin) as Ht.
  apply list_elem_of_fmap in Ht as (r & Er & _).
  destruct (normalize_row_email r) as [En Ev].
  destruct (normalize_row_mobile r) as [Mn Mv].
  split; [|split].
  - rewrite Er, Mn. apply mobile_valid_form. rewrite <- Mv, <- Er.
    destruct (Mobile_Valid ir.2); [reflexivity | tauto].
  - rewrite Er, En. apply email_valid_one_at. rewrite <- Ev, <- Er.
    destruct (Email_Valid ir.2); [reflexivity | tauto].
  - intros jr Hjr Hne. rewrite Hm in Hjr.
    pose proof Hin as Hi'. pose proof Hjr as Hj'.
    apply elem_of_frame_of in Hi', Hj'.
    assert (ir.1 ≠ jr.1) as Hidx.
    { intros E. rewrite E, Hj' in Hi'. injection Hi' as E2.
      apply Hne. destruct ir, jr; cbn in *; by subst. }
    split; intros E; apply Hnd; [left|right];
      eapply (occurrences_two _ _ ir.1 jr.1); eauto.
Qed.

Lemma clean_rows_canonical_witness :
  exists c, HandlerApp.classify [Scenario.row_A; Scenario.row_C] = Ok c
    /\ is_plus966_form (Mobile_Normalized (normalize_row Scenario.row_A)) = true.
Proof.
  eexists. split; [reflexivity|].
  apply (clean_rows_canonical [Scenario.row_A; Scenario.row_C] _
           (0, normalize_row Scenario.row_A) eq_refl).
  apply list_elem_of_here.
Defined.

(** X9.  In [app.py] a row whose email or mobile cell is empty is always
    classified as invalid and is never in the clean partition. *)
Theorem blank_contact_invalid (rows : list Row) (c : HandlerApp.Classification)
    (i : nat) (r : Row) :
  HandlerApp.classify rows = Ok c ->
  rows !! i = Some r ->
  Email r = "" \/ Mobile r = "" ->
  (i, normalize_row r) ∈ HandlerApp.invalids c
  /\ (i, normalize_row r) ∉ HandlerApp.clean_df c.
Proof.
  intros Hc Hr Hblank.
  destruct (classify_app_partitions rows c Hc) as (Hm & Hi & _).
  destruct (classify_app_clean rows c Hc) as (_ & _ & Hclean).
  assert ((i, normalize_row r) ∈ frame_of (normalize_row <$> rows)) as Hin.
  { apply elem_of_frame_of. cbn. by rewrite list_lookup_fmap, Hr. }
  assert ((i, normalize_row r) ∈ HandlerApp.invalids c) as Hinv.
  { rewrite Hi. apply list_elem_of_filter. split; [|exact Hin]. cbn.
    destruct (normalize_row_email r) as [_ ->].
    destruct (normalize_row_mobile r) as [_ ->].
    destruct Hblank as [->| ->]; [left|right]; reflexivity. }
  split; [exact Hinv|].
  rewrite Hclean, list_elem_of_filter. intros [Hout _]. apply Hout.
  unfold Index_union. apply elem_of_union_l, elem_of_list_to_set.
  unfold index. apply list_elem_of_fmap. by exists (i, normalize_row r).
Qed.

Lemma blank_contact_invalid_witness :
  exists c, HandlerApp.classify Scenario.no_email_rows = Ok c
    /\ (0, normalize_row (Scenario.with_contact "A" "" "0512345678"))
       ∈ HandlerApp.invalids c.
Proof.
  eexists. split; [reflexivity|].
  apply (blank_contact_invalid Scenario.no_email_rows _ 0
           (Scenario.with_contact "A" "" "0512345678") eq_refl eq_refl).
  left. reflexivity.
Defined.

(** Counting the selected rows of a frame is counting in the table. *)
Lemma length_filter_imap {A} (P : A → Prop) (Q : nat * A → Prop)
    `{!∀ x, Decision (P x)} `{!∀ ir, Decision (Q ir)}
    (f : nat → A → nat * A) (l : list A) :
  (∀ i x, (f i x).2 = x) → (∀ ir, Q ir ↔ P ir.2) →
  length (filter Q (imap f l)) = length (filter P l).
Proof.
  intros Hf HQ. revert f Hf. induction l as [|a l IH]; intros f Hf; [done|].
  cbn [imap]. rewrite !filter_cons.
  assert (Q (f 0 a) ↔ P a) as Ha by (by rewrite HQ, Hf).
  destruct (decide (Q (f 0 a))), (decide (P a)); try tauto;
    cbn [length]; rewrite IH; auto.
  all: intros i x; apply Hf.
Qed.

Lemma length_filter_frame {A} (P : A → Prop) (Q : nat * A → Prop)
    `{!∀ x, Decision (P x)} `{!∀ ir, Decision (Q ir)} (l : list A) :
  (∀ ir, Q ir ↔ P ir.2) →
  length (filter Q (frame_of l)) = length (filter P l).
Proof. intros HQ. unfold frame_of. by apply length_filter_imap. Qed.

Lemma length_filter_mono {A} (P Q : A → Prop) `{!∀ x, Decision (P x)}
    `{!∀ x, Decision (Q x)} (l : list A) :
  (∀ x, P x → Q x) → length (filter P l) ≤ length (filter Q l).
Proof.
  intros HPQ. induction l as [|a l IH]; [done|]. rewrite !filter_cons.
  destruct (decide (P a)) as [HP|], (decide (Q a)) as [|HQ];
    cbn [length]; try lia. destruct HQ. auto.
Qed.

Lemma occurrences_fmap {A} (f : A → string) (l : list A) v :
  occurrences v (f <$> l) = length (filter (λ x, f x = v) l).
Proof.
  unfold occurrences. induction l as [|a l IH]; [done|].
  rewrite fmap_cons, !filter_cons.
  destruct (decide (f a = v)); cbn [length]; by rewrite IH.
Qed.

(** X10.  A duplicate never comes alone: the duplicate count of [app.py]
    is zero or at least two. *)
Theorem duplicate_count_never_one (rows : list Row)
    (c : HandlerApp.Classification) :
  HandlerApp.classify rows = Ok c ->
  HandlerApp.duplicate_count c = 0%Z \/ (2 <= HandlerApp.duplicate_count c)%Z.
Proof.
  intros Hc.
  destruct (classify_app_partitions rows c Hc) as (Hm & _ & Hd & _ & _ & Hn).
  rewrite Hn, Hd. clear Hn Hd Hm.
  set (table := normalize_row <$> rows) in *.
  match goal with |- context [length ?l] => destruct l as [|ir dup] eqn:E end;
    [by left | right].
  assert (ir ∈ ir :: dup) as Hir by left.
  rewrite <- E in Hir |- *. clear E.
  apply list_elem_of_filter in Hir as [Hocc _].
  match goal with
  | |- context [length ?l] =>
      replace (length l)
        with (length (filter
                (λ x, 2 ≤ occurrences (Mobile_Normalized x)
                            (Mobile_Normalized <$> table)
                      ∨ 2 ≤ occurrences (Email_Normalized x)
                              (Email_Normalized <$> table)) table))
        by (symmetry;
            by apply (length_filter_frame
                     (λ x, 2 ≤ occurrences (Mobile_Normalized x)
                                 (Mobile_Normalized <$> table)
                           ∨ 2 ≤ occurrences (Email_Normalized x)
                                   (Email_Normalized <$> table))))
  end.
  apply (inj_le 2). destruct Hocc as [H|H].
  - etrans; [exact H|]. rewrite occurrences_fmap.
    apply length_filter_mono. intros x Hx. left. by rewrite Hx.
  - etrans; [exact H|]. rewrite occurrences_fmap.
    apply length_filter_mono. intros x Hx. right. by rewrite Hx.
Qed.

Lemma duplicate_count_never_one_witness :
  exists c, HandlerApp.classify Scenario.three_rows = Ok c
    /\ (HandlerApp.duplicate_count c = 0%Z
        \/ (2 <= HandlerApp.duplicate_count c)%Z).
Proof.
  eexists. split; [reflexivity|].
  apply (duplicate_count_never_one Scenario.three_rows). reflexivity.
Defined.

Lemma occurrences_Permutation (col col' : list string) v :
  col ≡ₚ col' → occurrences v col = occurrences v col'.
Proof. intros H. unfold occurrences. by rewrite H. Qed.

(** X11.  The counts of [app.py] do not depend on the order of the rows:
    two batches that hold the same rows in different orders get the same
    total, clean, invalid and duplicate counts. *)
Theorem counts_order_independent (rows rows' : list Row)
    (c c' : HandlerApp.Classification) :
  rows ≡ₚ rows' ->
  HandlerApp.classify rows = Ok c -> HandlerApp.classify rows' = Ok c' ->
  HandlerApp.total c = HandlerApp.total c'
  /\ HandlerApp.clean_count c = HandlerApp.clean_count c'
  /\ HandlerApp.invalid_count c = HandlerApp.invalid_count c'
  /\ HandlerApp.duplicate_count c = HandlerApp.duplicate_count c'.
Proof.
  intros Hp Hc Hc'.
  assert (Hall : forall rs k, HandlerApp.classify rs = Ok k ->
    let table := normalize_row <$> rs in
    let Pinv := λ x : NRow, Email_Valid x = false ∨ Mobile_Valid x = false in
    let Pdup := λ x : NRow,
      2 ≤ occurrences (Mobile_Normalized x) (Mobile_Normalized <$> table)
      ∨ 2 ≤ occurrences (Email_Normalized x) (Email_Normalized <$> table) in
    HandlerApp.total k = Z.of_nat (length table)
    /\ HandlerApp.invalid_count k = Z.of_nat (length (filter Pinv table))
    /\ HandlerApp.duplicate_count k = Z.of_nat (length (filter Pdup table))
    /\ HandlerApp.clean_count k
       = Z.of_nat (length (filter (λ x, ¬ (Pinv x ∨ Pdup x)) table))).
  { intros rs k Hk table Pinv Pdup.
    destruct (classify_app_partitions rs k Hk) as (Hm & Hi & Hd & Ht & Hni & Hnd).
    destruct (classify_app_clean rs k Hk) as (_ & Hnc & Hclean).
    fold table in Hm, Hi, Hd, Ht.
    split; [exact Ht|]. split; [|split].
    - rewrite Hni, Hi. f_equal. by apply (length_filter_frame Pinv).
    - rewrite Hnd, Hd. f_equal. by apply (length_filter_frame Pdup).
    - rewrite Hnc, Hclean, Hm. f_equal.
      rewrite <- (length_filter_frame (λ x, ¬ (Pinv x ∨ Pdup x))
                    (λ ir, ¬ (Pinv ir.2 ∨ Pdup ir.2))) by done.
      f_equal. apply filter_ext_elem. intros ir Hir. unfold Index_union.
      rewrite not_elem_of_union, !elem_of_list_to_set.
      rewrite Hi, Hd, !index_filter_frame by exact Hir.
      unfold Pinv, Pdup. tauto. }
  destruct (Hall rows c Hc) as (Ht & Hi & Hd & Hcl).
  destruct (Hall rows' c' Hc') as (Ht' & Hi' & Hd' & Hcl').
  rewrite Ht, Ht', Hi, Hi', Hd, Hd', Hcl, Hcl'.
  assert (normalize_row <$> rows ≡ₚ normalize_row <$> rows') as Hpt
    by by rewrite Hp.
  set (table := normalize_row <$> rows) in *.
  set (table' := normalize_row <$> rows') in *.
  assert (Hocc : forall (f : NRow -> string) v,
            occurrences v (f <$> table) = occurrences v (f <$> table')).
  { intros f v. apply occurrences_Permutation. by rewrite Hpt. }
  split; [by rewrite Hpt|]. split; [|split].
  - rewrite (filter_ext_elem _
      (λ x, ¬ ((Email_Valid x = false ∨ Mobile_Valid x = false)
               ∨ (2 ≤ occurrences (Mobile_Normalized x) (Mobile_Normalized <$> table')
                  ∨ 2 ≤ occurrences (Email_Normalized x) (Email_Normalized <$> table'))))
      table) by (intros x _; by rewrite !Hocc).
    by rewrite Hpt.
  - by rewrite Hpt.
  - rewrite (filter_ext_elem _
      (λ x, 2 ≤ occurrences (Mobile_Normalized x) (Mobile_Normalized <$> table')
            ∨ 2 ≤ occurrences (Email_Normalized x) (Email_Normalized <$> table'))
      table) by (intros x _; by rewrite !Hocc).
    by rewrite Hpt.
Qed.

Lemma counts_order_independent_witness :
  exists c c',
    HandlerApp.classify [Scenario.row_A; Scenario.row_B; Scenario.row_C] = Ok c
    /\ HandlerApp.classify [Scenario.row_C; Scenario.row_A; Scenario.row_B] = Ok c'
    /\ HandlerApp.duplicate_count c = HandlerApp.duplicate_count c'.
Proof.
  eexists. eexists. split; [reflexivity|]. split; [reflexivity|].
  apply (counts_order_independent
           [Scenario.row_A; Scenario.row_B; Scenario.row_C]
           [Scenario.row_C; Scenario.row_A; Scenario.row_B] _ _);
    [|reflexivity|reflexivity].
  apply Permutation_sym. etrans; [apply Permutation_swap|].
  constructor. apply Permutation_swap.
Defined.

Lemma classify_from_invalids dup_email (table : list NRow) ca :
  HandlerA.classify_from dup_email (frame_of table) = Ok ca →
  HandlerA.invalids ca
  = filter (λ ir : nat * NRow,
              Email_Valid ir.2 = false ∨ Mobile_Valid ir.2 = false)
      (frame_of table).
Proof.
  unfold HandlerA.classify_from. rewrite Series_duplicated_keep_false.
  cbn [bind]. cbn zeta. intros H. apply Ok_inj in H as <-.
  cbn [HandlerA.invalids]. unfold mask_or, mask_not.
  rewrite !column_frame_of, <- !list_fmap_compose, zip_with_fmap_same.
  rewrite select_by_row. apply filter_ext_elem. intros ir _.
  unfold compose. destruct (Email_Valid ir.2), (Mobile_Valid ir.2);
    cbn; naive_solver.
Qed.

(** X12.  In the summary of [a.py] every row listed as invalid names its
    reason: [Email], [Mobile] or both; the fallback text [Unknown] is
    never written. *)
Theorem invalid_reason_known (dup_email : list bool) (table : list NRow)
    (ca : HandlerA.Classification) (ir : nat * NRow) :
  HandlerA.classify_from dup_email (frame_of table) = Ok ca ->
  ir ∈ HandlerA.invalids ca ->
  reasons_text ir.2
  = (if Email_Valid ir.2 then "Mobile"
     else if Mobile_Valid ir.2 then "Email" else "Email, Mobile")
  /\ reasons_text ir.2 <> "Unknown".
Proof.
  intros Hc Hir. rewrite (classify_from_invalids _ _ _ Hc) in Hir.
  apply list_elem_of_filter in Hir as [Hinv _].
  unfold reasons_text, HandlerA.reasons.
  destruct (Email_Valid ir.2), (Mobile_Valid ir.2); cbn;
    (split; [reflexivity|discriminate]) || (destruct Hinv; discriminate).
Qed.

Lemma invalid_reason_known_witness :
  exists ca,
    HandlerA.classify_from [] (frame_of [normalize_row Scenario.row_C]) = Ok ca
    /\ reasons_text (normalize_row Scenario.row_C) = "Mobile".
Proof.
  eexists. split; [reflexivity|].
  apply (invalid_reason_known [] [normalize_row Scenario.row_C] _
           (0, normalize_row Scenario.row_C) eq_refl).
  apply list_elem_of_here.
Defined.

End DetectorFacts.

(** ** Column aliases *)

Module MapperFacts.
Import Mapper.

(** X13.  [resolve_col] returns the first candidate that is a column of
    the frame, and the default when no candidate is one; with the alias
    table of the upload, a column that bears the canonical name is always
    the one chosen, whatever other columns the sheet has. *)
Theorem resolve_col_first_match (columns : list string) (default : option string) :
  (forall before c after,
     c ∈ columns -> (forall b, b ∈ before -> b ∉ columns) ->
     resolve_col columns (before ++ c :: after) default = Some c)
  /\ (forall cands, (forall c, c ∈ cands -> c ∉ columns) ->
        resolve_col columns cands default = default)
  /\ (forall k ks, (k, ks) ∈ aliases -> k ∈ columns ->
        resolve_col columns ks None = Some k).
Proof.
  split; [|split].
  - intros before c after Hc. induction before as [|b before IH]; intros Hb.
    + cbn [app resolve_col]. by rewrite bool_decide_eq_true_2.
    + cbn [app resolve_col].
      rewrite bool_decide_eq_false_2 by (apply Hb; left).
      apply IH. intros b' Hb'. apply Hb. by right.
  - induction cands as [|a cands IH]; intros Hnone; [done|].
    cbn [resolve_col]. rewrite bool_decide_eq_false_2 by (apply Hnone; left).
    apply IH. intros c Hc. apply Hnone. by right.
  - intros k ks Hk Hin. unfold aliases in Hk.
    repeat (apply elem_of_cons in Hk as [[= -> ->]|Hk];
            [cbn [resolve_col]; by rewrite bool_decide_eq_true_2|]).
    by apply elem_of_nil in Hk.
Qed.

Lemma resolve_col_first_match_witness :
  resolve_col ["Cell"; "Phone"; "Email"] ["Mobile"; "Phone"; "Cell"; "Mobile_Normalized"]
    None
  = Some "Phone".
Proof.
  apply (proj1 (resolve_col_first_match ["Cell"; "Phone"; "Email"] None)
           ["Mobile"] "Phone" ["Cell"; "Mobile_Normalized"]).
  - set_solver.
  - intros b Hb. apply list_elem_of_singleton in Hb as ->. set_solver.
Defined.

End MapperFacts.

(** ** More on the vCard serialisers *)

Module VCardMore.
Import PyStr PyStrFacts StripFacts VCard VCardFacts.

Lemma count_app c s t : count c (s +:+ t) = (count c s + count c t)%Z.
Proof.
  induction s as [|a s IH]; [reflexivity|]. str_simpl. cbn [count].
  rewrite IH. lia.
Qed.

(** One line more than there are newlines. *)
Lemma split_lines_length s :
  Z.of_nat (length (split_lines s)) = (1 + count (ascii_of_N 10) s)%Z.
Proof.
  induction s as [|c r IH]; [reflexivity|]. cbn [split_lines count].
  unfold is_newline. destruct (Ascii.eqb c (ascii_of_N 10)).
  - cbn [length]. lia.
  - pose proof (split_lines_nonempty r) as Hne.
    destruct (split_lines r) as [|line lines]; [congruence|].
    cbn [length] in *. lia.
Qed.

(** X14.  [vcard_from_person] copies the values as they are: the block has
    its twelve lines and one more for every newline inside a value (the
    names are written twice, on the [N] and the [FN] line). *)
Theorem vcard_values_not_escaped (p : gmap string pyval) :
  let newlines k := count (ascii_of_N 10) (get_or_empty p k) in
  Z.of_nat (length (split_lines (vcard_from_person p)))
  = (12 + 2 * newlines "First_Name" + 2 * newlines "Last_Name"
     + newlines "Company" + newlines "Role" + newlines "Mobile"
     + newlines "Email" + newlines "Website" + newlines "Location"
     + newlines "Notes")%Z.
Proof.
  cbn zeta. rewrite split_lines_length. unfold vcard_from_person. cbn zeta.
  rewrite !count_app.
  change (count (ascii_of_N 10) nl) with 1%Z.
  repeat match goal with
    | |- context [count (ascii_of_N 10) ?l] =>
        lazymatch l with
        | get_or_empty _ _ => fail
        | _ => let v := eval vm_compute in (count (ascii_of_N 10) l) in
               change (count (ascii_of_N 10) l) with v
        end
    end.
  lia.
Qed.

Lemma newline_free_strip s : newline_free s = true -> newline_free (strip s) = true.
Proof.
  unfold newline_free, strip. intros H.
  destruct (strip_by_split is_space s) as (l & r & E & _ & _).
  rewrite E in H. rewrite !all_chars_app in H.
  now apply andb_true_iff in H as [_ [H _]%andb_true_iff].
Qed.

(** X15.  The serialiser of [app2.py] always writes [N], [FN], [TITLE] and
    [ORG], in that order, and then one line for each of email, mobile,
    phone, website and address that is not empty, and none for the empty
    ones. *)
Theorem vcard_app2_optional_lines (p : Person) :
  Forall (λ v, newline_free v = true)
    [FirstName p; LastName p; Role p; Company p; Email p; Mobile p; Phone p;
     Website p; Address p] ->
  property_names (vcard_from_person_app2 p)
  = ["BEGIN"; "VERSION"; "N"; "FN"; "TITLE"; "ORG"]
    ++ (if truthy (Email p) then ["EMAIL;TYPE=INTERNET"] else [])
    ++ (if truthy (Mobile p) then ["TEL;TYPE=CELL"] else [])
    ++ (if truthy (Phone p) then ["TEL;TYPE=WORK,VOICE"] else [])
    ++ (if truthy (Website p) then ["URL"] else [])
    ++ (if truthy (Address p) then ["ADR;TYPE=WORK"] else [])
    ++ ["END"].
Proof.
  intros H. repeat (apply Forall_cons in H as [? H]).
  assert (newline_free (full_name_en p) = true) as Hfn.
  { unfold full_name_en. apply newline_free_strip.
    rewrite !newline_free_app.
    repeat (apply andb_true_iff; split); try assumption; reflexivity. }
  unfold vcard_from_person_app2, append_if, property_names. cbn zeta.
  destruct (truthy (Email p)), (truthy (Mobile p)), (truthy (Phone p)),
    (truthy (Website p)), (truthy (Address p)); cbn [app];
    (rewrite split_lines_join;
     [ cbn [fmap list_fmap]; now property_name_simpl
     | discriminate
     | repeat (apply Forall_cons; split); try apply Forall_nil;
       rewrite ?newline_free_app;
       repeat (apply andb_true_iff; split); try assumption; reflexivity ]).
Qed.

Lemma vcard_app2_optional_lines_witness :
  property_names
    (vcard_from_person_app2
       {| FirstName := "Sara"; LastName := "Ali"; Arabic_Name := "";
          Role := "Analyst"; Email := "sara@x.sa"; Phone := ""; Mobile := "";
          Company := "Alraedah"; Department := ""; Website := "";
          LinkedIn := ""; Address := "Riyadh" |})
  = ["BEGIN"; "VERSION"; "N"; "FN"; "TITLE"; "ORG"; "EMAIL;TYPE=INTERNET";
     "ADR;TYPE=WORK"; "END"].
Proof.
  apply (vcard_app2_optional_lines
           {| FirstName := "Sara"; LastName := "Ali"; Arabic_Name := "";
              Role := "Analyst"; Email := "sara@x.sa"; Phone := ""; Mobile := "";
              Company := "Alraedah"; Department := ""; Website := "";
              LinkedIn := ""; Address := "Riyadh" |}).
  repeat (apply Forall_cons; split); try apply Forall_nil; reflexivity.
Defined.

End VCardMore.

(** ** The suite of [app2.py] *)

Module App2Facts.
Import PyStr PyStrFacts StripFacts NormalizerMore VCard VCardMore App2.

Lemma all_chars_not_contains P c s :
  P c = false -> all_chars P s = true -> contains c s = false.
Proof.
  intros Pc. induction s as [|a s IH]; [reflexivity|].
  cbn [all_chars contains]. intros [Pa Hs]%andb_true_iff.
  rewrite (IH Hs), orb_false_r. destruct (Ascii.eqb_spec a c) as [->|];
    [congruence | reflexivity].
Qed.

Lemma count_filter_kept f c s :
  f c = true -> count c (filter_chars f s) = count c s.
Proof.
  intros Fc. induction s as [|a s IH]; [reflexivity|].
  cbn [filter_chars count]. destruct (f a) eqn:Fa.
  - cbn [count]. now rewrite IH.
  - rewrite IH. destruct (Ascii.eqb_spec a c) as [->|]; [congruence|lia].
Qed.

Lemma count_replace_target a b s :
  (count b s <= count b (replace_char a b s))%Z.
Proof.
  unfold replace_char. induction s as [|x s IH]; [reflexivity|].
  cbn [map_chars count]. destruct (Ascii.eqb_spec x a) as [->|Hxa].
  - rewrite Ascii.eqb_refl. destruct (Ascii.eqb a b); lia.
  - lia.
Qed.

(** X16.  A slug is one path segment: it holds only letters, digits,
    underscores and hyphens (no slash, backslash, dot or space), and it is
    never empty, since the two underscores between first name, last name
    and role are always there. *)
Theorem safe_slug_segment (p : Person) :
  all_chars slug_char (safe_slug p) = true
  /\ contains "/" (safe_slug p) = false
  /\ contains "\" (safe_slug p) = false
  /\ contains "." (safe_slug p) = false
  /\ contains " " (safe_slug p) = false
  /\ (2 <= count "_" (safe_slug p))%Z.
Proof.
  assert (H : all_chars slug_char (safe_slug p) = true)
    by apply all_chars_filter.
  split; [exact H|].
  repeat (split; [now apply (all_chars_not_contains slug_char)|]).
  unfold safe_slug. cbn zeta. rewrite count_filter_kept by reflexivity.
  etransitivity; [|apply count_replace_target].
  rewrite !count_app.
  pose proof (count_nonneg "_" (FirstName p)).
  pose proof (count_nonneg "_" (LastName p)).
  pose proof (count_nonneg "_" (Role p)).
  change (count "_" "_") with 1%Z. lia.
Qed.

Lemma strip_fixed s : strip (strip s) = strip s.
Proof. apply strip_by_idem. Qed.

(** X17.  [people_from_excel] rejects a sheet exactly when one of the
    twelve expected columns is missing, and then reports the missing
    columns in the order of the expected list; otherwise it returns one
    person per row, in order, each of whose twelve fields is the trimmed
    cell of the column of the same name, and ignores any other column. *)
Theorem people_from_excel_columns (df : DataFrame) :
  match people_from_excel df with
  | MissingColumns missing =>
      missing <> []
      /\ (forall c, c ∈ missing <-> c ∈ expected /\ c ∉ columns df)
      /\ missing `sublist_of` expected
  | People people df' =>
      df' = df
      /\ (forall c, c ∈ expected -> c ∈ columns df)
      /\ length people = length (rows df)
      /\ (forall i q, people !! i = Some q ->
            exists row, rows df !! i = Some row
              /\ FirstName q = strip (row "FirstName")
              /\ LastName q = strip (row "LastName")
              /\ Arabic_Name q = strip (row "Arabic_Name")
              /\ Role q = strip (row "Role")
              /\ Email q = strip (row "Email")
              /\ Phone q = strip (row "Phone")
              /\ Mobile q = strip (row "Mobile")
              /\ Company q = strip (row "Company")
              /\ Department q = strip (row "Department")
              /\ Website q = strip (row "Website")
              /\ LinkedIn q = strip (row "LinkedIn")
              /\ Address q = strip (row "Address"))
      /\ (forall q, q ∈ people ->
            Forall (λ v, strip v = v)
              [FirstName q; LastName q; Arabic_Name q; Role q; Email q;
               Phone q; Mobile q; Company q; Department q; Website q;
               LinkedIn q; Address q])
  end.
Proof.
  unfold people_from_excel. cbn zeta.
  destruct (filter (λ c, c ∉ columns df) expected) as [|m ms] eqn:E.
  - split; [reflexivity|]. split; [|split; [|split]].
    + intros c Hc. destruct (decide (c ∈ columns df)) as [|Hn]; [done|].
      assert (c ∈ filter (λ c, c ∉ columns df) expected) as Hin
        by (by apply list_elem_of_filter).
      rewrite E in Hin. by apply elem_of_nil in Hin.
    + apply length_fmap.
    + intros i q Hq. rewrite list_lookup_fmap in Hq.
      destruct (rows df !! i) as [row|]; [|discriminate].
      injection Hq as <-. exists row. by repeat split.
    + intros q (row & -> & _)%list_elem_of_fmap. cbn.
      repeat (constructor; [apply strip_fixed|]). constructor.
  - rewrite <- E. split; [by rewrite E|]. split.
    + intros c. rewrite list_elem_of_filter. tauto.
    + apply sublist_filter.
Qed.

Lemma write_employee_folder_app z emp_dir slug a b c d e :
  write_employee_folder z emp_dir slug a b c d e
  = z ++ write_employee_folder [] emp_dir slug a b c d e.
Proof.
  unfold write_employee_folder, writestr. cbn zeta.
  rewrite !app_nil_l, <- !(assoc_L (++)). reflexivity.
Qed.

(** The loop body only appends, and appends as many entries as the
    chosen scenarios ask for. *)
Lemma write_person_app TODAY iq qc chosen z p :
  exists es, write_person TODAY iq qc chosen z p = z ++ es
             /\ length es = entries_per_person chosen.
Proof.
  unfold write_person, entries_per_person. cbn zeta.
  repeat case_bool_decide;
    repeat match goal with
      | |- context [write_employee_folder ?z0 _ _ _ _ _ _ _] =>
          lazymatch z0 with
          | [] => fail
          | _ => rewrite (write_employee_folder_app z0)
          end
      end;
    unfold writestr; rewrite <- ?(assoc_L (++));
    first [ by (exists []; rewrite app_nil_r)
          | eexists; (split; [reflexivity|]); reflexivity ].
Qed.

(** X18.  [build_zip_for_people] writes, for every person, seven entries
    for the full package (two folder entries and five files), one for the
    cards, one for the signatures and nine for the master folder, as
    chosen; nothing when no scenario is chosen. *)
Theorem build_zip_size (TODAY : string) (people : list Person)
    (include_qr_on_design : bool) (qr_color : string)
    (chosen_scenarios : list scenario) :
  length (build_zip_for_people TODAY people include_qr_on_design qr_color
            chosen_scenarios)
  = length people * entries_per_person chosen_scenarios
  /\ build_zip_for_people TODAY people include_qr_on_design qr_color [] = [].
Proof.
  unfold build_zip_for_people.
  assert (H : forall ch z,
            length (foldl (write_person TODAY include_qr_on_design qr_color ch)
                      z people)
            = length z + length people * entries_per_person ch).
  { intros ch. induction people as [|p people IH]; intros z; [cbn; lia|].
    cbn [foldl length]. rewrite IH.
    destruct (write_person_app TODAY include_qr_on_design qr_color ch z p)
      as (es & -> & Hes).
    rewrite length_app, Hes. lia. }
  split; [by rewrite H|].
  apply nil_length_inv. rewrite H.
  change (entries_per_person []) with 0. cbn [length]. lia.
Qed.

End App2Facts.

(** ** More on the sanitiser and on the archive of [app.py] *)

Module SanitizerMore.
Import PyStr PyStrFacts StripFacts NormalizerMore Sanitizer SanitizerFacts.
Import ArchiveFacts.

Lemma runs_safe_id b s :
  all_chars is_safe s = true -> re_sub_unsafe_runs b s = s.
Proof.
  revert b. induction s as [|a s IH]; intros b; [reflexivity|].
  cbn [all_chars]. intros [Ha Hs]%andb_true_iff.
  rewrite runs_safe_head by exact Ha. now rewrite IH.
Qed.

(** X20.  Sanitising is idempotent: a root that came out of [safe_root]
    goes through it unchanged, when the default name is itself clean (safe
    characters, no underscore at either end), as the dated default is. *)
Theorem safe_root_idempotent (name default : string) :
  truthy default = true -> all_chars is_safe default = true ->
  strip_chars "_" default = default ->
  safe_root (safe_root name default) default = safe_root name default.
Proof.
  intros T S U.
  assert (Hfix : forall t, truthy t = true -> all_chars is_safe t = true ->
            strip_chars "_" t = t -> safe_root t default = t).
  { intros t Tt St Ut. unfold safe_root, or_else. rewrite Tt.
    unfold re_sub_unsafe. rewrite (runs_safe_id false t St), Ut.
    now rewrite Tt. }
  unfold safe_root at 2 3.
  set (t := strip_chars "_" (re_sub_unsafe (or_else name default))).
  unfold or_else. destruct (truthy t) eqn:Tt.
  - apply Hfix; [exact Tt | apply strip_by_all_chars, runs_all_safe |].
    apply strip_by_idem.
  - now apply Hfix.
Qed.

Lemma safe_root_idempotent_witness :
  safe_root (safe_root "Q1 Hires / 2024!" "Batch_Outputs_20240101")
    "Batch_Outputs_20240101"
  = "Q1_Hires_2024".
Proof.
  rewrite (safe_root_idempotent "Q1 Hires / 2024!" "Batch_Outputs_20240101");
    reflexivity.
Defined.

End SanitizerMore.

Module AppArchiveFacts.
Import Pandas Batch PandasFacts BatchFacts DetectorFacts.

(** X21.  [app.py] produces no archive exactly when the clean partition
    is empty, that is when every row of the batch is invalid or a
    duplicate. *)
Theorem no_archive_iff_no_clean (rows : list Row)
    (c : HandlerApp.Classification) (download_options : list string)
    (custom_zip_prefix now : string) :
  HandlerApp.classify rows = Ok c ->
  (HandlerApp.generate_zip c download_options custom_zip_prefix now = None
   <-> HandlerApp.clean_df c = [])
  /\ (HandlerApp.clean_df c = []
      <-> forall ir, ir ∈ HandlerApp.mapped c ->
            ir ∈ HandlerApp.invalids c \/ ir ∈ HandlerApp.duplicates c).
Proof.
  intros Hc.
  destruct (classify_app_clean rows c Hc) as (Hm & Hn & Hclean).
  destruct (classify_app_partitions rows c Hc) as (_ & Hi & Hd & _).
  split.
  - unfold HandlerApp.generate_zip. rewrite Hn.
    destruct (HandlerApp.clean_df c) as [|x l]; cbn [length].
    + done.
    + destruct (Z.eqb_spec (Z.of_nat (S (length l))) 0); [lia|]. done.
  - rewrite Hclean. split.
    + intros E ir Hir.
      destruct (decide (ir.1 ∈ Index_union (index (HandlerApp.invalids c))
                                            (index (HandlerApp.duplicates c))))
        as [Hin|Hout].
      * unfold Index_union in Hin.
        rewrite elem_of_union, !elem_of_list_to_set in Hin.
        rewrite Hm in Hir. rewrite Hi, Hd in Hin |- *.
        rewrite !index_filter_frame in Hin by exact Hir.
        rewrite !list_elem_of_filter. tauto.
      * exfalso.
        assert (ir ∈ filter
                  (λ ir, ir.1 ∉ Index_union (index (HandlerApp.invalids c))
                                             (index (HandlerApp.duplicates c)))
                  (HandlerApp.mapped c)) as Hin
          by (by apply list_elem_of_filter).
        rewrite E in Hin. by apply elem_of_nil in Hin.
    + intros Hall. apply elem_of_nil_inv. intros ir.
      rewrite list_elem_of_filter. intros [Hout Hir]. apply Hout.
      unfold Index_union. rewrite elem_of_union, !elem_of_list_to_set.
      unfold index. rewrite !list_elem_of_fmap.
      destruct (Hall ir Hir); [left|right]; by exists ir.
Qed.

Lemma no_archive_iff_no_clean_witness :
  exists c, HandlerApp.classify Scenario.three_rows = Ok c
    /\ HandlerApp.generate_zip c ["Business Cards Only"] "Q1" "now" = None.
Proof.
  eexists. split; [reflexivity|].
  apply (proj1 (no_archive_iff_no_clean Scenario.three_rows _
                  ["Business Cards Only"] "Q1" "now" eq_refl)).
  reflexivity.
Defined.

End AppArchiveFacts.
